(* Shallow embedding of gdb/symfile-debug.c: the logging shadow of an
   objfile's symbol-reader table (struct sym_fns), its installation and
   removal, the table mutator objfile_set_sym_fns, the "set debug symfile"
   handler, and the objfile query methods that forward to objfile->qf. *)

From stdpp Require Import base gmap list strings.
From Stdlib Require Import ZArith.

Open Scope Z_scope.

(* ------------------------------------------------------------------ *)
(* Code pointers, tables and log output                               *)
(* ------------------------------------------------------------------ *)

(** The static debugging functions of this file. *)
Inductive proxy :=
  | Pnew_init | Pinit | Pread | Pfinish | Poffsets | Psegments
  | Pread_linetable | Prelocate | Pget_probes.

(** A function pointer stored in a table: a backend (symbol reader)
    function, identified by a number, or one of the debugging functions. *)
Inductive code :=
  | Backend (n : nat)
  | Debug (p : proxy).

(** struct sym_probe_fns (the type; the field of sym_fns has the same
    name): one optional function. *)
Record sym_probe_table := { sym_get_probes : option code }.

(** struct sym_fns: optional slots (None = NULL) and the optional nested
    probe table (the pointed-to const table, held by value). *)
Record sym_fns := {
  sym_new_init : option code;
  sym_init : option code;
  sym_read : option code;
  sym_finish : option code;
  sym_offsets : option code;
  sym_segments : option code;
  sym_read_linetable : option code;
  sym_relocate : option code;
  sym_probe_fns : option sym_probe_table }.

(** `struct sym_fns debug_sf {}`: every slot NULL. *)
Definition sym_fns_zero : sym_fns :=
  {| sym_new_init := None; sym_init := None; sym_read := None;
     sym_finish := None; sym_offsets := None; sym_segments := None;
     sym_read_linetable := None; sym_relocate := None;
     sym_probe_fns := None |}.

(** static const struct sym_probe_fns debug_sym_probe_fns. *)
Definition debug_sym_probe_fns : sym_probe_table :=
  {| sym_get_probes := Some (Debug Pget_probes) |}.

(** struct debug_sym_fns_data.  The embedded member debug_sf is stored in
    the memory of sym_fns objects; the record holds its address. *)
Record debug_sym_fns_data := {
  real_sf : option Z;
  debug_sf : Z }.

(** Values printed in a log line. *)
Inductive val :=
  | VObj (objfile : Z)        (* objfile_debug_name (objfile) *)
  | VInt (n : Z)              (* %d *)
  | VHex (n : Z)              (* 0x%x, hex_string *)
  | VAddr (p : Z)             (* host_address_to_string *)
  | VCStr (p : Z)             (* a char * argument printed with %s *)
  | VSymtab (p : Z)           (* debug_symtab_name (symtab) *)
  | VCompunit (p : Z)         (* debug_symtab_name (compunit_primary_filetab) *)
  | VDomain (d : Z)           (* domain_name, search_domain_name *)
  | VStr (s : string).        (* a literal such as "NULL" *)

(** Observable events: a line written to gdb_stdlog (format string without
    its trailing newline, and the printed values), a call that enters a
    backend function, and a call through the quick functions objfile->qf. *)
Inductive event :=
  | Line (fmt : string) (vals : list val)
  | Forward (n : nat) (args : list Z)
  | Qf_call (qf : Z) (method : string) (args : list Z).

(** Return value of a call through a table slot. *)
Inductive ret := RVoid | RVal (v : Z).

(** How an operation stops when it does not return normally:
    gdb_assert / gdb_assert_not_reached, a NULL pointer dereference or a
    call through a NULL slot, an error thrown by a callee, a call whose
    arguments do not fit the function, or exhausted evaluation fuel. *)
Inductive failure :=
  | Assert_fail (msg : string)
  | Null_deref
  | Thrown (e : Z)
  | Bad_call
  | Out_of_fuel.

Inductive res (A : Type) := Ok (a : A) | Fail (f : failure).
Arguments Ok {A} a.
Arguments Fail {A} f.

(* ------------------------------------------------------------------ *)
(* Program state                                                      *)
(* ------------------------------------------------------------------ *)

(** Objfiles, pointers and memory cells are addresses in Z; a map without
    a key is a NULL field. *)
Record state := {
  debug_symfile : bool;                     (* static bool debug_symfile *)
  objfiles : list Z;                        (* objfiles of all program spaces *)
  objfile_sf : gmap Z Z;                    (* objfile->sf *)
  objfile_qf : gmap Z Z;                    (* objfile->qf *)
  objfile_flags : gmap Z Z;                 (* objfile->flags *)
  sym_fns_mem : gmap Z sym_fns;             (* sym_fns objects in memory *)
  data_key : gmap Z debug_sym_fns_data;     (* symfile_debug_objfile_data_key *)
  bool_cells : gmap Z bool }.               (* bool objects (out-parameters) *)

Definition set_objfile_sf (σ : state) (m : gmap Z Z) : state :=
  {| debug_symfile := debug_symfile σ; objfiles := objfiles σ;
     objfile_sf := m; objfile_qf := objfile_qf σ;
     objfile_flags := objfile_flags σ; sym_fns_mem := sym_fns_mem σ;
     data_key := data_key σ; bool_cells := bool_cells σ |}.

Definition set_sym_fns_mem (σ : state) (m : gmap Z sym_fns) : state :=
  {| debug_symfile := debug_symfile σ; objfiles := objfiles σ;
     objfile_sf := objfile_sf σ; objfile_qf := objfile_qf σ;
     objfile_flags := objfile_flags σ; sym_fns_mem := m;
     data_key := data_key σ; bool_cells := bool_cells σ |}.

Definition set_data_key (σ : state) (m : gmap Z debug_sym_fns_data) : state :=
  {| debug_symfile := debug_symfile σ; objfiles := objfiles σ;
     objfile_sf := objfile_sf σ; objfile_qf := objfile_qf σ;
     objfile_flags := objfile_flags σ; sym_fns_mem := sym_fns_mem σ;
     data_key := m; bool_cells := bool_cells σ |}.

Definition set_bool_cells (σ : state) (m : gmap Z bool) : state :=
  {| debug_symfile := debug_symfile σ; objfiles := objfiles σ;
     objfile_sf := objfile_sf σ; objfile_qf := objfile_qf σ;
     objfile_flags := objfile_flags σ; sym_fns_mem := sym_fns_mem σ;
     data_key := data_key σ; bool_cells := m |}.

Definition set_debug_symfile_var (σ : state) (b : bool) : state :=
  {| debug_symfile := b; objfiles := objfiles σ;
     objfile_sf := objfile_sf σ; objfile_qf := objfile_qf σ;
     objfile_flags := objfile_flags σ; sym_fns_mem := sym_fns_mem σ;
     data_key := data_key σ; bool_cells := bool_cells σ |}.

(** Store a possibly NULL pointer into a pointer field. *)
Definition store_ptr {V} (k : Z) (p : option V) (m : gmap Z V) : gmap Z V :=
  match p with Some v => <[k := v]> m | None => delete k m end.

(* ------------------------------------------------------------------ *)
(* A state, log and failure monad                                     *)
(* ------------------------------------------------------------------ *)

Record run (A : Type) := Run { final : state; events : list event; result : res A }.
Arguments Run {A} final events result.
Arguments final {A} r.
Arguments events {A} r.
Arguments result {A} r.

Definition M (A : Type) := state -> run A.

#[global] Instance M_ret : MRet M := fun A a σ => Run σ [] (Ok a).
#[global] Instance M_bind : MBind M := fun A B f m σ =>
  match m σ with
  | Run σ1 ev1 (Ok a) =>
      match f a σ1 with Run σ2 ev2 r => Run σ2 (ev1 ++ ev2) r end
  | Run σ1 ev1 (Fail e) => Run σ1 ev1 (Fail e)
  end.

#[global] Instance M_fmap : FMap M := fun A B f m => x ← m; mret (f x).

Definition fail {A} (e : failure) : M A := fun σ => Run σ [] (Fail e).
Definition gets {A} (f : state -> A) : M A := fun σ => Run σ [] (Ok (f σ)).
Definition modify (f : state -> state) : M unit := fun σ => Run (f σ) [] (Ok tt).
Definition emit (e : event) : M unit := fun σ => Run σ [e] (Ok tt).
Definition lift {A} (r : res A) : M A := fun σ => Run σ [] r.

(** fprintf_filtered (gdb_stdlog, fmt, ...). *)
Definition log_line (fmt : string) (vs : list val) : M unit := emit (Line fmt vs).

(** gdb_assert (b). *)
Definition gdb_assert (b : bool) (msg : string) : M unit :=
  if b then mret tt else fail (Assert_fail msg).

(** A double quote inside a C format string. *)
Definition dq : string := String (Ascii.ascii_of_nat 34) EmptyString.

(* ------------------------------------------------------------------ *)
(* The objfile data key and the objfile fields                        *)
(* ------------------------------------------------------------------ *)

(** symfile_debug_objfile_data_key.get (objfile). *)
Definition key_get (objfile : Z) : M (option debug_sym_fns_data) :=
  gets (fun σ => data_key σ !! objfile).

(** symfile_debug_objfile_data_key.set (objfile, debug_data). *)
Definition key_set (objfile : Z) (d : debug_sym_fns_data) : M unit :=
  modify (fun σ => set_data_key σ (<[objfile := d]> (data_key σ))).

(** symfile_debug_objfile_data_key.clear (objfile): the registry deletes
    the datum (and with it the embedded debug_sf) and drops the entry. *)
Definition key_clear (objfile : Z) : M unit :=
  modify (fun σ =>
    match data_key σ !! objfile with
    | Some d => set_data_key (set_sym_fns_mem σ (delete (debug_sf d) (sym_fns_mem σ)))
                             (delete objfile (data_key σ))
    | None => σ
    end).

Definition get_sf (objfile : Z) : M (option Z) := gets (fun σ => objfile_sf σ !! objfile).

(** objfile->sf = p. *)
Definition set_sf (objfile : Z) (p : option Z) : M unit :=
  modify (fun σ => set_objfile_sf σ (store_ptr objfile p (objfile_sf σ))).

(** *p for p : const struct sym_fns *. *)
Definition deref_sf (p : option Z) : M sym_fns :=
  σ ← gets id;
  match p with
  | Some a => match sym_fns_mem σ !! a with Some t => mret t | None => fail Null_deref end
  | None => fail Null_deref
  end.

(** new struct debug_sym_fns_data: fresh storage whose debug_sf is {}. *)
Definition new_debug_sym_fns_data : M debug_sym_fns_data :=
  σ ← gets id;
  let a := fresh (dom (sym_fns_mem σ)) in
  modify (fun σ => set_sym_fns_mem σ (<[a := sym_fns_zero]> (sym_fns_mem σ)));;
  mret {| real_sf := None; debug_sf := a |}.

(** symfile_debug_installed. *)
Definition installed_in (σ : state) (objfile : Z) : bool :=
  match objfile_sf σ !! objfile, data_key σ !! objfile with
  | Some _, Some _ => true
  | _, _ => false
  end.

Definition symfile_debug_installed (objfile : Z) : M bool :=
  gets (fun σ => installed_in σ objfile).

(* ------------------------------------------------------------------ *)
(* The debugging versions of the sym_fns functions                    *)
(* ------------------------------------------------------------------ *)

(** debug_data->real_sf->FIELD: dereference the datum and the saved table. *)
Definition real_field (debug_data : option debug_sym_fns_data)
    (field : sym_fns -> option code) : M code :=
  match debug_data with
  | None => fail Null_deref
  | Some d =>
      t ← deref_sf (real_sf d);
      match field t with Some f => mret f | None => fail Null_deref end
  end.

(** debug_data->real_sf->sym_probe_fns->sym_get_probes. *)
Definition real_probe_field (debug_data : option debug_sym_fns_data) : M code :=
  match debug_data with
  | None => fail Null_deref
  | Some d =>
      t ← deref_sf (real_sf d);
      match sym_probe_fns t with
      | Some p => match sym_get_probes p with Some f => mret f | None => fail Null_deref end
      | None => fail Null_deref
      end
  end.

Section Proxies.

(** Calling a function pointer with its arguments.  A void debugging
    function ends with the (void) call of the real function, so it hands
    back whatever that call returns. *)
Variable call : code -> list Z -> M ret.

Definition debug_sym_get_probes (objfile : Z) : M ret :=
  debug_data ← key_get objfile;
  f ← real_probe_field debug_data;
  r ← call f [objfile];
  let data := match r with RVal v => v | RVoid => 0 end in
  log_line "probes->sym_get_probes (%s) = %s" [VObj objfile; VAddr data];;
  mret r.

Definition debug_sym_new_init (objfile : Z) : M ret :=
  debug_data ← key_get objfile;
  log_line "sf->sym_new_init (%s)" [VObj objfile];;
  f ← real_field debug_data sym_new_init;
  call f [objfile].

Definition debug_sym_init (objfile : Z) : M ret :=
  debug_data ← key_get objfile;
  log_line "sf->sym_init (%s)" [VObj objfile];;
  f ← real_field debug_data sym_init;
  call f [objfile].

Definition debug_sym_read (objfile symfile_flags : Z) : M ret :=
  debug_data ← key_get objfile;
  log_line "sf->sym_read (%s, 0x%x)" [VObj objfile; VHex symfile_flags];;
  f ← real_field debug_data sym_read;
  call f [objfile; symfile_flags].

Definition debug_sym_finish (objfile : Z) : M ret :=
  debug_data ← key_get objfile;
  log_line "sf->sym_finish (%s)" [VObj objfile];;
  f ← real_field debug_data sym_finish;
  call f [objfile].

Definition debug_sym_offsets (objfile info : Z) : M ret :=
  debug_data ← key_get objfile;
  log_line "sf->sym_offsets (%s, %s)" [VObj objfile; VAddr info];;
  f ← real_field debug_data sym_offsets;
  call f [objfile; info].

Definition debug_sym_segments (abfd : Z) : M ret :=
  fail (Assert_fail "debug_sym_segments called").

Definition debug_sym_read_linetable (objfile : Z) : M ret :=
  debug_data ← key_get objfile;
  log_line "sf->sym_read_linetable (%s)" [VObj objfile];;
  f ← real_field debug_data sym_read_linetable;
  call f [objfile].

Definition debug_sym_relocate (objfile sectp buf : Z) : M ret :=
  debug_data ← key_get objfile;
  f ← real_field debug_data sym_relocate;
  retval ← call f [objfile; sectp; buf];
  let r := match retval with RVal v => v | RVoid => 0 end in
  log_line "sf->sym_relocate (%s, %s, %s) = %s"
    [VObj objfile; VAddr sectp; VAddr buf; VAddr r];;
  mret retval.

(** Entering a debugging function with an argument list. *)
Definition run_proxy (p : proxy) (args : list Z) : M ret :=
  match p, args with
  | Pnew_init, [o] => debug_sym_new_init o
  | Pinit, [o] => debug_sym_init o
  | Pread, [o; fl] => debug_sym_read o fl
  | Pfinish, [o] => debug_sym_finish o
  | Poffsets, [o; info] => debug_sym_offsets o info
  | Psegments, [abfd] => debug_sym_segments abfd
  | Pread_linetable, [o] => debug_sym_read_linetable o
  | Prelocate, [o; sectp; buf] => debug_sym_relocate o sectp buf
  | Pget_probes, [o] => debug_sym_get_probes o
  | _, _ => fail Bad_call
  end.

End Proxies.

Section Dispatch.

(** What the backend (symbol reader) functions do; they are outside this
    file.  A backend call returns or throws. *)
Variable backend : nat -> list Z -> res ret.

(** Calling through a function pointer. *)
Fixpoint call_code (fuel : nat) (c : code) (args : list Z) : M ret :=
  match fuel with
  | O => fail Out_of_fuel
  | S k =>
      match c with
      | Backend n => emit (Forward n args);; lift (backend n args)
      | Debug p => run_proxy (call_code k) p args
      end
  end.

End Dispatch.

(* ------------------------------------------------------------------ *)
(* Install, uninstall, objfile_set_sym_fns, set debug symfile          *)
(* ------------------------------------------------------------------ *)

(** COPY_SF_PTR (from, to, name, func). *)
Definition COPY_SF_PTR (from : option code) (to : option code) (func : proxy) : option code :=
  if from then Some (Debug func) else to.

(** The slot copies of install_symfile_debug_logging, applied to the
    freshly allocated debug_sf. *)
Definition copy_sf_ptrs (real : sym_fns) (dbg : sym_fns) : sym_fns :=
  {| sym_new_init := COPY_SF_PTR (sym_new_init real) (sym_new_init dbg) Pnew_init;
     sym_init := COPY_SF_PTR (sym_init real) (sym_init dbg) Pinit;
     sym_read := COPY_SF_PTR (sym_read real) (sym_read dbg) Pread;
     sym_finish := COPY_SF_PTR (sym_finish real) (sym_finish dbg) Pfinish;
     sym_offsets := COPY_SF_PTR (sym_offsets real) (sym_offsets dbg) Poffsets;
     sym_segments := COPY_SF_PTR (sym_segments real) (sym_segments dbg) Psegments;
     sym_read_linetable :=
       COPY_SF_PTR (sym_read_linetable real) (sym_read_linetable dbg) Pread_linetable;
     sym_relocate := COPY_SF_PTR (sym_relocate real) (sym_relocate dbg) Prelocate;
     sym_probe_fns :=
       if sym_probe_fns real then Some debug_sym_probe_fns else sym_probe_fns dbg |}.

Definition install_symfile_debug_logging (objfile : Z) : M unit :=
  installed ← symfile_debug_installed objfile;
  gdb_assert (negb installed) "!symfile_debug_installed (objfile)";;
  real_sf_p ← get_sf objfile;
  debug_data ← new_debug_sym_fns_data;
  real ← deref_sf real_sf_p;
  dbg ← deref_sf (Some (debug_sf debug_data));
  modify (fun σ => set_sym_fns_mem σ
    (<[debug_sf debug_data := copy_sf_ptrs real dbg]> (sym_fns_mem σ)));;
  let debug_data' := {| real_sf := real_sf_p; debug_sf := debug_sf debug_data |} in
  key_set objfile debug_data';;
  set_sf objfile (Some (debug_sf debug_data')).

Definition uninstall_symfile_debug_logging (objfile : Z) : M unit :=
  installed ← symfile_debug_installed objfile;
  gdb_assert installed "symfile_debug_installed (objfile)";;
  debug_data ← key_get objfile;
  match debug_data with
  | None => fail Null_deref
  | Some d =>
      set_sf objfile (real_sf d);;
      key_clear objfile
  end.

Definition objfile_set_sym_fns (objfile : Z) (sf : option Z) : M unit :=
  installed ← symfile_debug_installed objfile;
  (if (installed : bool) then
     flag ← gets debug_symfile;
     gdb_assert flag "debug_symfile";;
     uninstall_symfile_debug_logging objfile
   else mret tt);;
  set_sf objfile sf;;
  enabled ← gets debug_symfile;
  if (enabled : bool) then install_symfile_debug_logging objfile else mret tt.

(** The loop body of set_debug_symfile for one objfile. *)
Definition set_debug_symfile_one (objfile : Z) : M unit :=
  flag ← gets debug_symfile;
  installed ← symfile_debug_installed objfile;
  if (flag : bool) then
    (if negb installed then install_symfile_debug_logging objfile else mret tt)
  else
    (if (installed : bool) then uninstall_symfile_debug_logging objfile else mret tt).

Fixpoint set_debug_symfile_loop (os : list Z) : M unit :=
  match os with
  | [] => mret tt
  | o :: os' => set_debug_symfile_one o;; set_debug_symfile_loop os'
  end.

(** set_debug_symfile: walk every objfile of every program space. *)
Definition set_debug_symfile : M unit :=
  os ← gets objfiles;
  set_debug_symfile_loop os.

(** "set debug symfile B": the setting stores B in debug_symfile, then
    runs its set hook set_debug_symfile. *)
Definition set_debug_symfile_cmd (b : bool) : M unit :=
  modify (fun σ => set_debug_symfile_var σ b);;
  set_debug_symfile.

(* ------------------------------------------------------------------ *)
(* The objfile methods that forward to objfile->qf                    *)
(* ------------------------------------------------------------------ *)

(** OBJF_PSYMTABS_READ (objfile-flags.h: 1 << 4). *)
Definition OBJF_PSYMTABS_READ : Z := Z.shiftl 1 4.

(** language_unknown, the first enumerator of enum language. *)
Definition language_unknown : Z := 0.

Definition get_qf (this : Z) : M (option Z) := gets (fun σ => objfile_qf σ !! this).
Definition get_flags (this : Z) : M Z :=
  gets (fun σ => default 0 (objfile_flags σ !! this)).

(** Log only when debug_symfile is set. *)
Definition debug_log (fmt : string) (vs : list val) : M unit :=
  flag ← gets debug_symfile;
  if (flag : bool) then log_line fmt vs else mret tt.

(** `p ? debug_symtab_name (p) : "NULL"` and its compunit variant. *)
Definition symtab_or_null (p : Z) : val := if p =? 0 then VStr "NULL" else VSymtab p.
Definition compunit_or_null (p : Z) : val := if p =? 0 then VStr "NULL" else VCompunit p.

Section Query.

(** The quick_symbol_functions behind objfile->qf, outside this file: the
    value a method returns and the bool objects it stores through its
    pointer arguments. *)
Variable quick : Z -> string -> list Z -> res (Z * list (Z * bool)).

Definition qf_call (q : Z) (method : string) (args : list Z) : M Z :=
  emit (Qf_call q method args);;
  '(v, writes) ← lift (quick q method args);
  modify (fun σ => set_bool_cells σ
    (foldr (fun pb m => <[fst pb := snd pb]> m) (bool_cells σ) writes));;
  mret v.

Definition qf_bool (q : Z) (method : string) (args : list Z) : M bool :=
  v ← qf_call q method args; mret (negb (v =? 0)).

Definition has_partial_symbols (this : Z) : M bool :=
  flags ← get_flags this;
  qf ← get_qf this;
  lazily ← (if Z.land flags OBJF_PSYMTABS_READ =? 0 then
               match qf with
               | Some q => qf_bool q "can_lazily_read_symbols" []
               | None => mret false
               end
             else mret false);
  retval ← (if (lazily : bool) then mret true
            else match qf with
                 | Some q => qf_bool q "has_symbols" [this]
                 | None => mret false
                 end);
  debug_log "qf->has_symbols (%s) = %d" [VObj this; VInt (Z.b2z retval)];;
  mret retval.

Definition find_last_source_symtab (this : Z) : M Z :=
  debug_log "qf->find_last_source_symtab (%s)" [VObj this];;
  qf ← get_qf this;
  retval ← match qf with Some q => qf_call q "find_last_source_symtab" [this] | None => mret 0 end;
  debug_log "qf->find_last_source_symtab (...) = %s" [symtab_or_null retval];;
  mret retval.

Definition forget_cached_source_info (this : Z) : M unit :=
  debug_log "qf->forget_cached_source_info (%s)" [VObj this];;
  qf ← get_qf this;
  match qf with Some q => _ ← qf_call q "forget_cached_source_info" [this]; mret tt | None => mret tt end.

Definition map_symtabs_matching_filename (this name real_path callback : Z) : M bool :=
  debug_log ("qf->map_symtabs_matching_filename (%s, " +:+ dq +:+ "%s" +:+ dq +:+ ", "
             +:+ dq +:+ "%s" +:+ dq +:+ ", %s)")
    [VObj this; VCStr name; VCStr real_path; VAddr callback];;
  qf ← get_qf this;
  retval ← match qf with
           | Some q => qf_bool q "map_symtabs_matching_filename" [this; name; real_path; callback]
           | None => mret false
           end;
  debug_log "qf->map_symtabs_matching_filename (...) = %d" [VInt (Z.b2z retval)];;
  mret retval.

Definition lookup_symbol (this kind name domain : Z) : M Z :=
  debug_log ("qf->lookup_symbol (%s, %d, " +:+ dq +:+ "%s" +:+ dq +:+ ", %s)")
    [VObj this; VInt kind; VCStr name; VDomain domain];;
  qf ← get_qf this;
  retval ← match qf with Some q => qf_call q "lookup_symbol" [this; kind; name; domain] | None => mret 0 end;
  debug_log "qf->lookup_symbol (...) = %s" [compunit_or_null retval];;
  mret retval.

Definition print_stats (this : Z) (print_bcache : bool) : M unit :=
  debug_log "qf->print_stats (%s, %d)" [VObj this; VInt (Z.b2z print_bcache)];;
  qf ← get_qf this;
  match qf with
  | Some q => _ ← qf_call q "print_stats" [this; Z.b2z print_bcache]; mret tt
  | None => mret tt
  end.

Definition dump (this : Z) : M unit :=
  debug_log "qf->dump (%s)" [VObj this];;
  qf ← get_qf this;
  match qf with Some q => _ ← qf_call q "dump" [this]; mret tt | None => mret tt end.

Definition expand_symtabs_for_function (this func_name : Z) : M unit :=
  debug_log ("qf->expand_symtabs_for_function (%s, " +:+ dq +:+ "%s" +:+ dq +:+ ")")
    [VObj this; VCStr func_name];;
  qf ← get_qf this;
  match qf with
  | Some q => _ ← qf_call q "expand_symtabs_for_function" [this; func_name]; mret tt
  | None => mret tt
  end.

Definition expand_all_symtabs (this : Z) : M unit :=
  debug_log "qf->expand_all_symtabs (%s)" [VObj this];;
  qf ← get_qf this;
  match qf with Some q => _ ← qf_call q "expand_all_symtabs" [this]; mret tt | None => mret tt end.

Definition expand_symtabs_with_fullname (this fullname : Z) : M unit :=
  debug_log ("qf->expand_symtabs_with_fullname (%s, " +:+ dq +:+ "%s" +:+ dq +:+ ")")
    [VObj this; VCStr fullname];;
  qf ← get_qf this;
  match qf with
  | Some q => _ ← qf_call q "expand_symtabs_with_fullname" [this; fullname]; mret tt
  | None => mret tt
  end.

Definition map_matching_symbols (this name domain global callback ordered_compare : Z) : M unit :=
  debug_log "qf->map_matching_symbols (%s, %s, %d, %s)"
    [VObj this; VDomain domain; VInt global; VAddr ordered_compare];;
  qf ← get_qf this;
  match qf with
  | Some q => _ ← qf_call q "map_matching_symbols"
                    [this; name; domain; global; callback; ordered_compare]; mret tt
  | None => mret tt
  end.

Definition expand_symtabs_matching
    (this file_matcher lookup_name symbol_matcher expansion_notify kind : Z) : M unit :=
  debug_log "qf->expand_symtabs_matching (%s, %s, %s, %s, %s)"
    [VObj this; VAddr file_matcher; VAddr symbol_matcher; VAddr expansion_notify;
     VDomain kind];;
  qf ← get_qf this;
  match qf with
  | Some q => _ ← qf_call q "expand_symtabs_matching"
                    [this; file_matcher; lookup_name; symbol_matcher; expansion_notify; kind];
              mret tt
  | None => mret tt
  end.

Definition find_pc_sect_compunit_symtab (this msymbol pc section warn_if_readin : Z) : M Z :=
  debug_log "qf->find_pc_sect_compunit_symtab (%s, %s, %s, %s, %d)"
    [VObj this; VAddr msymbol; VHex pc; VAddr section; VInt warn_if_readin];;
  qf ← get_qf this;
  retval ← match qf with
           | Some q => qf_call q "find_pc_sect_compunit_symtab"
                         [this; msymbol; pc; section; warn_if_readin]
           | None => mret 0
           end;
  debug_log "qf->find_pc_sect_compunit_symtab (...) = %s" [compunit_or_null retval];;
  mret retval.

Definition map_symbol_filenames (this fn data need_fullname : Z) : M unit :=
  debug_log "qf->map_symbol_filenames (%s, %s, %s, %d)"
    [VObj this; VAddr fn; VAddr data; VInt need_fullname];;
  qf ← get_qf this;
  match qf with
  | Some q => _ ← qf_call q "map_symbol_filenames" [this; fn; data; need_fullname]; mret tt
  | None => mret tt
  end.

Definition find_compunit_symtab_by_address (this address : Z) : M Z :=
  debug_log "qf->find_compunit_symtab_by_address (%s, %s)" [VObj this; VHex address];;
  qf ← get_qf this;
  result ← match qf with
           | Some q => qf_call q "find_compunit_symtab_by_address" [this; address]
           | None => mret 0
           end;
  debug_log "qf->find_compunit_symtab_by_address (...) = %s" [compunit_or_null result];;
  mret result.

(** *symbol_found_p = false stores into the bool object at symbol_found_p. *)
Definition lookup_global_symbol_language (this name domain symbol_found_p : Z) : M Z :=
  qf ← get_qf this;
  match qf with
  | Some q => qf_call q "lookup_global_symbol_language" [this; name; domain; symbol_found_p]
  | None =>
      modify (fun σ => set_bool_cells σ (<[symbol_found_p := false]> (bool_cells σ)));;
      mret language_unknown
  end.

End Query.

(** The query methods, with their arguments, and their return values. *)
Inductive query :=
  | Q_has_partial_symbols
  | Q_find_last_source_symtab
  | Q_forget_cached_source_info
  | Q_map_symtabs_matching_filename (name real_path callback : Z)
  | Q_lookup_symbol (kind name domain : Z)
  | Q_print_stats (print_bcache : bool)
  | Q_dump
  | Q_expand_symtabs_for_function (func_name : Z)
  | Q_expand_all_symtabs
  | Q_expand_symtabs_with_fullname (fullname : Z)
  | Q_map_matching_symbols (name domain global callback ordered_compare : Z)
  | Q_expand_symtabs_matching
      (file_matcher lookup_name symbol_matcher expansion_notify kind : Z)
  | Q_find_pc_sect_compunit_symtab (msymbol pc section warn_if_readin : Z)
  | Q_map_symbol_filenames (fn data need_fullname : Z)
  | Q_find_compunit_symtab_by_address (address : Z)
  | Q_lookup_global_symbol_language (name domain symbol_found_p : Z).

Inductive qres := QBool (b : bool) | QPtr (p : Z) | QUnit | QLang (l : Z).

Definition run_query (quick : Z -> string -> list Z -> res (Z * list (Z * bool)))
    (this : Z) (q : query) : M qres :=
  match q with
  | Q_has_partial_symbols => QBool <$> has_partial_symbols quick this
  | Q_find_last_source_symtab => QPtr <$> find_last_source_symtab quick this
  | Q_forget_cached_source_info => (fun _ => QUnit) <$> forget_cached_source_info quick this
  | Q_map_symtabs_matching_filename name real_path callback =>
      QBool <$> map_symtabs_matching_filename quick this name real_path callback
  | Q_lookup_symbol kind name domain => QPtr <$> lookup_symbol quick this kind name domain
  | Q_print_stats pb => (fun _ => QUnit) <$> print_stats quick this pb
  | Q_dump => (fun _ => QUnit) <$> dump quick this
  | Q_expand_symtabs_for_function fname =>
      (fun _ => QUnit) <$> expand_symtabs_for_function quick this fname
  | Q_expand_all_symtabs => (fun _ => QUnit) <$> expand_all_symtabs quick this
  | Q_expand_symtabs_with_fullname fullname =>
      (fun _ => QUnit) <$> expand_symtabs_with_fullname quick this fullname
  | Q_map_matching_symbols name domain global callback oc =>
      (fun _ => QUnit) <$> map_matching_symbols quick this name domain global callback oc
  | Q_expand_symtabs_matching fm ln sm en kind =>
      (fun _ => QUnit) <$> expand_symtabs_matching quick this fm ln sm en kind
  | Q_find_pc_sect_compunit_symtab ms pc sect w =>
      QPtr <$> find_pc_sect_compunit_symtab quick this ms pc sect w
  | Q_map_symbol_filenames fn data nf =>
      (fun _ => QUnit) <$> map_symbol_filenames quick this fn data nf
  | Q_find_compunit_symtab_by_address addr =>
      QPtr <$> find_compunit_symtab_by_address quick this addr
  | Q_lookup_global_symbol_language name domain p =>
      QLang <$> lookup_global_symbol_language quick this name domain p
  end.

(* ------------------------------------------------------------------ *)
(* The slots of struct sym_fns                                        *)
(* ------------------------------------------------------------------ *)

Inductive slot :=
  | Snew_init | Sinit | Sread | Sfinish | Soffsets | Ssegments
  | Sread_linetable | Srelocate.

Definition all_slots : list slot :=
  [Snew_init; Sinit; Sread; Sfinish; Soffsets; Ssegments; Sread_linetable; Srelocate].

Definition slot_field (s : slot) : sym_fns -> option code :=
  match s with
  | Snew_init => sym_new_init | Sinit => sym_init | Sread => sym_read
  | Sfinish => sym_finish | Soffsets => sym_offsets | Ssegments => sym_segments
  | Sread_linetable => sym_read_linetable | Srelocate => sym_relocate
  end.

(** The debugging function of each slot in the template debug_sym_fns. *)
Definition slot_proxy (s : slot) : proxy :=
  match s with
  | Snew_init => Pnew_init | Sinit => Pinit | Sread => Pread
  | Sfinish => Pfinish | Soffsets => Poffsets | Ssegments => Psegments
  | Sread_linetable => Pread_linetable | Srelocate => Prelocate
  end.

(** The original function a debugging function forwards to, read from the
    saved table real_sf, and the number of arguments after the objfile. *)
Definition forwarded_code (t : sym_fns) (p : proxy) : option code :=
  match p with
  | Pnew_init => sym_new_init t | Pinit => sym_init t | Pread => sym_read t
  | Pfinish => sym_finish t | Poffsets => sym_offsets t | Psegments => sym_segments t
  | Pread_linetable => sym_read_linetable t | Prelocate => sym_relocate t
  | Pget_probes => match sym_probe_fns t with Some pt => sym_get_probes pt | None => None end
  end.

Definition proxy_nargs (p : proxy) : nat :=
  match p with Pread | Poffsets => 1 | Prelocate => 2 | _ => 0 end.

(** What a query method hands back when there is no objfile->qf, and how
    it leaves the state: lookup_global_symbol_language stores false
    through symbol_found_p, the others change nothing. *)
Definition query_default (q : query) : qres :=
  match q with
  | Q_has_partial_symbols | Q_map_symtabs_matching_filename _ _ _ => QBool false
  | Q_find_last_source_symtab | Q_lookup_symbol _ _ _
  | Q_find_pc_sect_compunit_symtab _ _ _ _ | Q_find_compunit_symtab_by_address _ => QPtr 0
  | Q_lookup_global_symbol_language _ _ _ => QLang language_unknown
  | _ => QUnit
  end.

Definition query_default_state (q : query) (σ : state) : state :=
  match q with
  | Q_lookup_global_symbol_language _ _ p => set_bool_cells σ (<[p := false]> (bool_cells σ))
  | _ => σ
  end.

Definition is_qf_call (e : event) : bool :=
  match e with Qf_call _ _ _ => true | _ => false end.

(** The quick_symbol_functions method a query forwards to, its arguments,
    and the query's answer made from the method's return value. *)
Definition query_method (q : query) : string :=
  match q with
  | Q_has_partial_symbols => "has_symbols"
  | Q_find_last_source_symtab => "find_last_source_symtab"
  | Q_forget_cached_source_info => "forget_cached_source_info"
  | Q_map_symtabs_matching_filename _ _ _ => "map_symtabs_matching_filename"
  | Q_lookup_symbol _ _ _ => "lookup_symbol"
  | Q_print_stats _ => "print_stats"
  | Q_dump => "dump"
  | Q_expand_symtabs_for_function _ => "expand_symtabs_for_function"
  | Q_expand_all_symtabs => "expand_all_symtabs"
  | Q_expand_symtabs_with_fullname _ => "expand_symtabs_with_fullname"
  | Q_map_matching_symbols _ _ _ _ _ => "map_matching_symbols"
  | Q_expand_symtabs_matching _ _ _ _ _ => "expand_symtabs_matching"
  | Q_find_pc_sect_compunit_symtab _ _ _ _ => "find_pc_sect_compunit_symtab"
  | Q_map_symbol_filenames _ _ _ => "map_symbol_filenames"
  | Q_find_compunit_symtab_by_address _ => "find_compunit_symtab_by_address"
  | Q_lookup_global_symbol_language _ _ _ => "lookup_global_symbol_language"
  end.

Definition query_args (this : Z) (q : query) : list Z :=
  match q with
  | Q_has_partial_symbols | Q_find_last_source_symtab | Q_forget_cached_source_info
  | Q_dump | Q_expand_all_symtabs => [this]
  | Q_map_symtabs_matching_filename name real_path callback =>
      [this; name; real_path; callback]
  | Q_lookup_symbol kind name domain => [this; kind; name; domain]
  | Q_print_stats pb => [this; Z.b2z pb]
  | Q_expand_symtabs_for_function f => [this; f]
  | Q_expand_symtabs_with_fullname f => [this; f]
  | Q_map_matching_symbols name domain global callback oc =>
      [this; name; domain; global; callback; oc]
  | Q_expand_symtabs_matching fm ln sm en kind => [this; fm; ln; sm; en; kind]
  | Q_find_pc_sect_compunit_symtab ms pc sect w => [this; ms; pc; sect; w]
  | Q_map_symbol_filenames fn data nf => [this; fn; data; nf]
  | Q_find_compunit_symtab_by_address addr => [this; addr]
  | Q_lookup_global_symbol_language name domain p => [this; name; domain; p]
  end.

Definition query_value (q : query) (v : Z) : qres :=
  match q with
  | Q_has_partial_symbols | Q_map_symtabs_matching_filename _ _ _ => QBool (negb (v =? 0))
  | Q_find_last_source_symtab | Q_lookup_symbol _ _ _
  | Q_find_pc_sect_compunit_symtab _ _ _ _ | Q_find_compunit_symtab_by_address _ => QPtr v
  | Q_lookup_global_symbol_language _ _ _ => QLang v
  | _ => QUnit
  end.

(** The bool objects a qf method stores through its pointer arguments. *)
Definition store_bools (σ : state) (writes : list (Z * bool)) : state :=
  set_bool_cells σ (foldr (fun pb m => <[fst pb := snd pb]> m) (bool_cells σ) writes).

Definition is_line (e : event) : bool :=
  match e with Line _ _ => true | _ => false end.

(** The value a value-returning query method prints in its closing log
    line, as a function of what the quick function returned. *)
Definition query_result_val (q : query) (v : Z) : option val :=
  match q with
  | Q_find_last_source_symtab => Some (symtab_or_null v)
  | Q_map_symtabs_matching_filename _ _ _ => Some (VInt (Z.b2z (negb (v =? 0))))
  | Q_lookup_symbol _ _ _ | Q_find_pc_sect_compunit_symtab _ _ _ _
  | Q_find_compunit_symtab_by_address _ => Some (compunit_or_null v)
  | _ => None
  end.

(** The fields an operation leaves alone at objfile o, and an operation
    that leaves them alone from every state. *)
Definition same_at (o : Z) (σ σ' : state) : Prop :=
  objfile_sf σ' !! o = objfile_sf σ !! o ∧ data_key σ' !! o = data_key σ !! o ∧
  debug_symfile σ' = debug_symfile σ ∧ objfiles σ' = objfiles σ.

Definition keeps (o : Z) {A} (m : M A) : Prop := ∀ σ, same_at o σ (final (m σ)).

(* ------------------------------------------------------------------ *)
(* Reachable states                                                   *)
(* ------------------------------------------------------------------ *)

(** An objfile joining its program space's list, as objfile creation
    (objfiles.c, outside this file) does it: its sf starts NULL and the
    registry holds nothing for it yet. *)
Definition add_objfile (σ : state) (o : Z) : state :=
  {| debug_symfile := debug_symfile σ; objfiles := objfiles σ ++ [o];
     objfile_sf := delete o (objfile_sf σ); objfile_qf := objfile_qf σ;
     objfile_flags := objfile_flags σ; sym_fns_mem := sym_fns_mem σ;
     data_key := data_key σ; bool_cells := bool_cells σ |}.

(** The states a session reaches from one where no objfile carries
    instrumentation: objfiles are created, objfile_set_sym_fns is called
    on listed objfiles, "set debug symfile" is run and query methods are
    called.  A step counts whatever its outcome, since an error leaves the
    state as it is. *)
Inductive reachable : state -> Prop :=
  | reach_start σ : data_key σ = ∅ -> reachable σ
  | reach_new_objfile σ o : o ∉ objfiles σ -> reachable σ -> reachable (add_objfile σ o)
  | reach_set_sym_fns σ o sf :
      o ∈ objfiles σ -> reachable σ -> reachable (final (objfile_set_sym_fns o sf σ))
  | reach_set_debug σ b : reachable σ -> reachable (final (set_debug_symfile_cmd b σ))
  | reach_query quick σ o q : reachable σ -> reachable (final (run_query quick o q σ)).

(** Every registry entry belongs to a listed objfile whose sf is set, and
    either logging is on or the objfile is still among os, the objfiles
    a running set_debug_symfile has yet to visit. *)
Definition keys_accounted (os : list Z) (σ : state) : Prop :=
  ∀ o d, data_key σ !! o = Some d ->
    o ∈ objfiles σ ∧ is_Some (objfile_sf σ !! o) ∧ (debug_symfile σ = true ∨ o ∈ os).

(* ------------------------------------------------------------------ *)
(* Concrete inputs                                                    *)
(* ------------------------------------------------------------------ *)

Module Sample.

(** A reader table with read populated and finish absent. *)
Definition table : sym_fns :=
  {| sym_new_init := Some (Backend 1); sym_init := Some (Backend 2);
     sym_read := Some (Backend 3); sym_finish := None; sym_offsets := None;
     sym_segments := Some (Backend 4); sym_read_linetable := None;
     sym_relocate := Some (Backend 5);
     sym_probe_fns := Some {| sym_get_probes := Some (Backend 6) |} |}.

(** Objfile 7 whose sf is the table at address 100. *)
Definition loaded (flag : bool) : state :=
  {| debug_symfile := flag; objfiles := [7]; objfile_sf := {[7 := 100]};
     objfile_qf := ∅; objfile_flags := ∅; sym_fns_mem := {[100 := table]};
     data_key := ∅; bool_cells := ∅ |}.

(** The same objfile, instrumented: the shadow table lives at 101. *)
Definition instrumented : state :=
  {| debug_symfile := true; objfiles := [7]; objfile_sf := {[7 := 101]};
     objfile_qf := ∅; objfile_flags := ∅;
     sym_fns_mem := <[101 := copy_sf_ptrs table sym_fns_zero]> {[100 := table]};
     data_key := {[7 := {| real_sf := Some 100; debug_sf := 101 |}]};
     bool_cells := ∅ |}.

(** An objfile whose sf is still NULL. *)
Definition unread : state :=
  {| debug_symfile := true; objfiles := [7]; objfile_sf := ∅;
     objfile_qf := ∅; objfile_flags := ∅; sym_fns_mem := {[100 := table]};
     data_key := ∅; bool_cells := ∅ |}.

(** Reader functions: relocate (5) returns 42, read (3) and get_probes (6)
    throw error 9, the others return. *)
Definition backend (n : nat) (args : list Z) : res ret :=
  match n with
  | 5%nat => Ok (RVal 42)
  | 3%nat | 6%nat => Fail (Thrown 9)
  | _ => Ok RVoid
  end.

(** Relocate throws as well. *)
Definition throwing_backend (n : nat) (args : list Z) : res ret :=
  match n with
  | 5%nat | 6%nat => Fail (Thrown 9)
  | _ => Ok RVoid
  end.

(** Objfile 7 with its quick-function table at 50 and no flags set. *)
Definition with_qf (flag : bool) : state :=
  {| debug_symfile := flag; objfiles := [7]; objfile_sf := {[7 := 100]};
     objfile_qf := {[7 := 50]}; objfile_flags := {[7 := 0]};
     sym_fns_mem := {[100 := table]}; data_key := ∅; bool_cells := ∅ |}.

(** Quick functions that cannot read lazily and otherwise return 5,
    storing true into the bool object at 30. *)
Definition quick (q : Z) (method : string) (args : list Z) : res (Z * list (Z * bool)) :=
  if bool_decide (method = "can_lazily_read_symbols") then Ok (0, [])
  else Ok (5, [(30, true)]).

End Sample.

(* ================================================================== *)
(* Proofs                                                             *)
(* ================================================================== *)
Lemma install_run (σ : state) (o a : Z) (t : sym_fns) :
  data_key σ !! o = None ->
  objfile_sf σ !! o = Some a ->
  sym_fns_mem σ !! a = Some t ->
  install_symfile_debug_logging o σ =
    let f := fresh (dom (sym_fns_mem σ)) in
    Run (set_objfile_sf
           (set_data_key
              (set_sym_fns_mem σ (<[f := copy_sf_ptrs t sym_fns_zero]> (sym_fns_mem σ)))
              (<[o := {| real_sf := Some a; debug_sf := f |}]> (data_key σ)))
           (<[o := f]> (objfile_sf σ)))
        [] (Ok tt).
Proof.
  intros Hk Hs Hm.
  assert (Hne : a ≠ fresh (dom (sym_fns_mem σ))).
  { intros ->. apply (is_fresh (dom (sym_fns_mem σ))). apply elem_of_dom. eauto. }
  unfold install_symfile_debug_logging, symfile_debug_installed, installed_in, gets,
    gdb_assert, get_sf, new_debug_sym_fns_data, deref_sf, key_set, set_sf, modify,
    store_ptr, mbind, M_bind, mret, M_ret.
  cbv beta iota. rewrite Hs, Hk. cbv beta iota. simpl.
  rewrite !Hs. simpl. rewrite lookup_insert_ne; [|congruence]. rewrite Hm. simpl.
  rewrite lookup_insert_eq. simpl.
  unfold set_objfile_sf, set_data_key, set_sym_fns_mem; simpl.
  rewrite insert_insert_eq. reflexivity.
Qed.

Ltac unfold_M :=
  repeat progress (unfold mbind, M_bind, mret, M_ret, gets, modify, emit, lift, fail,
    gdb_assert, key_get, key_set, key_clear, get_sf, set_sf, deref_sf,
    new_debug_sym_fns_data, symfile_debug_installed, id);
  cbv beta iota.

Lemma uninstall_run (σ : state) (o p : Z) (d : debug_sym_fns_data) :
  objfile_sf σ !! o = Some p ->
  data_key σ !! o = Some d ->
  uninstall_symfile_debug_logging o σ =
    Run (set_data_key
           (set_sym_fns_mem
              (set_objfile_sf σ (store_ptr o (real_sf d) (objfile_sf σ)))
              (delete (debug_sf d) (sym_fns_mem σ)))
           (delete o (data_key σ)))
        [] (Ok tt).
Proof.
  intros Hs Hk. unfold uninstall_symfile_debug_logging. unfold_M.
  unfold installed_in. rewrite Hs, Hk. cbv beta iota. rewrite Hk. cbv beta iota.
  cbn [data_key set_objfile_sf]. rewrite Hk. reflexivity.
Qed.
Lemma state_eta (σ : state) :
  {| debug_symfile := debug_symfile σ; objfiles := objfiles σ;
     objfile_sf := objfile_sf σ; objfile_qf := objfile_qf σ;
     objfile_flags := objfile_flags σ; sym_fns_mem := sym_fns_mem σ;
     data_key := data_key σ; bool_cells := bool_cells σ |} = σ.
Proof. by destruct σ. Qed.

(** C1: installing on an objfile that is not instrumented, whose sf
    points to a table t, succeeds, records t as real_sf and points sf at a
    fresh shadow table in which every one of the eight slots holds its
    debug_sym_* proxy exactly when the slot of t is set, and is NULL
    otherwise; the probe table is the debugging one exactly when t has
    one. *)
Theorem install_preserves_absence (σ : state) (o a : Z) (t : sym_fns) :
  data_key σ !! o = None ->
  objfile_sf σ !! o = Some a ->
  sym_fns_mem σ !! a = Some t ->
  let r := install_symfile_debug_logging o σ in
  result r = Ok tt ∧
  ∃ (d : debug_sym_fns_data) (sh : sym_fns),
    data_key (final r) !! o = Some d ∧ real_sf d = Some a ∧
    objfile_sf (final r) !! o = Some (debug_sf d) ∧
    sym_fns_mem (final r) !! debug_sf d = Some sh ∧
    (∀ s : slot, slot_field s sh =
        if slot_field s t then Some (Debug (slot_proxy s)) else None) ∧
    sym_probe_fns sh = (if sym_probe_fns t then Some debug_sym_probe_fns else None).
Proof.
  intros Hk Hs Hm r. subst r. rewrite (install_run σ o a t Hk Hs Hm). simpl.
  split; [done|].
  eexists _, _. split; [apply lookup_insert_eq|]. split; [done|].
  split; [apply lookup_insert_eq|]. split; [apply lookup_insert_eq|].
  split.
  - intros s. destruct s; simpl; unfold COPY_SF_PTR; by repeat case_match.
  - simpl. by destruct (sym_probe_fns t).
Qed.

(** C4: on an objfile that is not instrumented and whose sf points to a
    table, install followed by uninstall succeeds, gives sf back its old
    pointer, leaves no registry entry for the objfile and ends in the state
    it started from. *)
Theorem install_uninstall_roundtrip (σ : state) (o a : Z) (t : sym_fns) :
  data_key σ !! o = None ->
  objfile_sf σ !! o = Some a ->
  sym_fns_mem σ !! a = Some t ->
  let r := (install_symfile_debug_logging o;; uninstall_symfile_debug_logging o) σ in
  result r = Ok tt ∧ objfile_sf (final r) !! o = Some a ∧
  data_key (final r) !! o = None ∧ final r = σ.
Proof.
  intros Hk Hs Hm r.
  assert (Hf : sym_fns_mem σ !! fresh (dom (sym_fns_mem σ)) = None).
  { apply not_elem_of_dom. apply is_fresh. }
  assert (E : r = Run σ [] (Ok tt)).
  { subst r. unfold mbind, M_bind. rewrite (install_run σ o a t Hk Hs Hm).
    cbv beta iota zeta.
    rewrite (uninstall_run _ o (fresh (dom (sym_fns_mem σ)))
               {| real_sf := Some a; debug_sf := fresh (dom (sym_fns_mem σ)) |});
      [| apply lookup_insert_eq | apply lookup_insert_eq].
    unfold set_data_key, set_sym_fns_mem, set_objfile_sf, store_ptr; simpl.
    rewrite insert_insert_eq, insert_id by done.
    rewrite delete_insert_eq, delete_id by done.
    rewrite delete_insert_eq, delete_id by done.
    rewrite state_eta. reflexivity. }
  rewrite E. simpl. auto.
Qed.

(** C5 (amended): install aborts with the assertion
    "!symfile_debug_installed (objfile)", state unchanged, exactly when
    instrumentation is installed; when it is not, no assertion fires (with
    a NULL sf install dereferences it instead).  Uninstall aborts with the
    assertion "symfile_debug_installed (objfile)", state unchanged, when
    instrumentation is not installed, and succeeds when it is. *)
Theorem install_uninstall_assertions (σ : state) (o : Z) :
  (installed_in σ o = true ->
     install_symfile_debug_logging o σ =
       Run σ [] (Fail (Assert_fail "!symfile_debug_installed (objfile)"))) ∧
  (installed_in σ o = false ->
     ∀ msg, result (install_symfile_debug_logging o σ) ≠ Fail (Assert_fail msg)) ∧
  (installed_in σ o = false ->
     uninstall_symfile_debug_logging o σ =
       Run σ [] (Fail (Assert_fail "symfile_debug_installed (objfile)"))) ∧
  (installed_in σ o = true ->
     result (uninstall_symfile_debug_logging o σ) = Ok tt).
Proof.
  split; [|split; [|split]]; intros H.
  - unfold install_symfile_debug_logging. unfold_M. rewrite H. reflexivity.
  - intros msg. unfold install_symfile_debug_logging. unfold_M. rewrite H. cbv beta iota.
    repeat (case_match; cbv beta iota; simpl); simpl in *; congruence.
  - unfold uninstall_symfile_debug_logging. unfold_M. rewrite H. reflexivity.
  - unfold installed_in in H.
    destruct (objfile_sf σ !! o) as [p|] eqn:Hs; [|done].
    destruct (data_key σ !! o) as [d|] eqn:Hk; [|done].
    by rewrite (uninstall_run σ o p d Hs Hk).
Qed.

(** C7: every call through the segments proxy, from every state and with
    every argument, fails with the assertion "debug_sym_segments called",
    leaving the state unchanged and logging nothing. *)
Theorem segments_proxy_aborts (backend : nat -> list Z -> res ret) (fuel : nat)
    (σ : state) (abfd : Z) :
  call_code backend (S fuel) (Debug Psegments) [abfd] σ =
    Run σ [] (Fail (Assert_fail "debug_sym_segments called")).
Proof. reflexivity. Qed.

(** C6 (amended): for an instrumented objfile and every proxy but the
    segments one whose original slot is set (the probe query included),
    calling the proxy with the slot's arguments returns the result the
    original returns on the same arguments and ends in the same state; the
    events of the direct call appear unchanged among the proxy's, around
    its log lines. *)
Theorem shadow_forwarding (backend : nat -> list Z -> res ret) (σ : state)
    (o a : Z) (d : debug_sym_fns_data) (t : sym_fns) (p : proxy) (c : code)
    (xs : list Z) (k : nat) :
  data_key σ !! o = Some d -> real_sf d = Some a -> sym_fns_mem σ !! a = Some t ->
  forwarded_code t p = Some c -> p ≠ Psegments -> length xs = proxy_nargs p ->
  let direct := call_code backend k c (o :: xs) σ in
  let shadow := call_code backend (S k) (Debug p) (o :: xs) σ in
  result shadow = result direct ∧ final shadow = final direct ∧
  ∃ pre post, events shadow = pre ++ events direct ++ post.
Proof.
  intros Hk Hd Hm Hc Hp Hn direct shadow. subst direct shadow.
  destruct p; simpl in Hc, Hn; try congruence;
    repeat (destruct xs as [|? xs]; simpl in Hn; try discriminate);
    cbn [call_code run_proxy];
    unfold debug_sym_new_init, debug_sym_init, debug_sym_read, debug_sym_finish,
      debug_sym_offsets, debug_sym_read_linetable, debug_sym_relocate,
      debug_sym_get_probes, real_field, real_probe_field, log_line;
    unfold_M; rewrite Hk; cbv beta iota; rewrite Hd; cbv beta iota; rewrite Hm;
    cbv beta iota.
  all: try (destruct (sym_probe_fns t) as [pt|]; [|discriminate]; cbv beta iota).
  all: rewrite Hc; cbv beta iota.
  all: destruct (call_code backend k c _ σ) as [σ' ev [r|e]]; simpl.
  all: split; [done|]; split; [done|].
  all: first [ exists [], []; by rewrite ?app_nil_r
             | eexists [_], []; by rewrite ?app_nil_r
             | eexists [], [_]; by rewrite ?app_nil_r ].
Qed.

(** C2: the relocate proxy and the probe-query proxy call the original
    first and log afterwards: when the original throws, the only event is
    the forwarded call and no log line is printed. *)
Theorem relocate_and_probes_log_after_call (backend : nat -> list Z -> res ret)
    (σ : state) (o a : Z) (d : debug_sym_fns_data) (t : sym_fns) (k : nat) :
  data_key σ !! o = Some d -> real_sf d = Some a -> sym_fns_mem σ !! a = Some t ->
  (∀ n sectp buf e, sym_relocate t = Some (Backend n) ->
     backend n [o; sectp; buf] = Fail (Thrown e) ->
     call_code backend (S (S k)) (Debug Prelocate) [o; sectp; buf] σ =
       Run σ [Forward n [o; sectp; buf]] (Fail (Thrown e))) ∧
  (∀ n e, forwarded_code t Pget_probes = Some (Backend n) ->
     backend n [o] = Fail (Thrown e) ->
     call_code backend (S (S k)) (Debug Pget_probes) [o] σ =
       Run σ [Forward n [o]] (Fail (Thrown e))).
Proof.
  intros Hk Hd Hm. split.
  - intros n sectp buf e Hc He.
    cbn [call_code run_proxy]. unfold debug_sym_relocate, real_field.
    unfold_M. rewrite Hk; cbv beta iota; rewrite Hd; cbv beta iota; rewrite Hm;
    cbv beta iota; rewrite Hc; cbv beta iota. rewrite He. reflexivity.
  - intros n e Hc He. simpl in Hc.
    cbn [call_code run_proxy]. unfold debug_sym_get_probes, real_probe_field.
    unfold_M. rewrite Hk; cbv beta iota; rewrite Hd; cbv beta iota; rewrite Hm;
    cbv beta iota. destruct (sym_probe_fns t) as [pt|]; [|discriminate].
    cbv beta iota. rewrite Hc; cbv beta iota. rewrite He. reflexivity.
Qed.

Lemma lookup_store_ptr {V} (k : Z) (p : option V) (m : gmap Z V) :
  store_ptr k p m !! k = p.
Proof. destruct p; simpl; [apply lookup_insert_eq | apply lookup_delete_eq]. Qed.

Lemma lookup_store_ptr_ne {V} (k j : Z) (p : option V) (m : gmap Z V) :
  k ≠ j -> store_ptr k p m !! j = m !! j.
Proof. intros H. destruct p; simpl; [by apply lookup_insert_ne | by apply lookup_delete_ne]. Qed.

Lemma bind_ok {A B} (m : M A) (f : A -> M B) (σ σ' : state) (ev : list event) (x : A) :
  m σ = Run σ' ev (Ok x) ->
  (m ≫= f) σ = Run (final (f x σ')) (ev ++ events (f x σ')) (result (f x σ')).
Proof. intros H. unfold mbind, M_bind. rewrite H. by destruct (f x σ'). Qed.

Lemma bind_fail {A B} (m : M A) (f : A -> M B) (σ σ' : state) (ev : list event) e :
  m σ = Run σ' ev (Fail e) -> (m ≫= f) σ = Run σ' ev (Fail e).
Proof. intros H. unfold mbind, M_bind. by rewrite H. Qed.

(** objfile_set_sym_fns when logging is off and the objfile is plain. *)
Lemma guard_run_disabled (σ : state) (m : Z) (sf : option Z) :
  debug_symfile σ = false -> installed_in σ m = false ->
  objfile_set_sym_fns m sf σ =
    Run (set_objfile_sf σ (store_ptr m sf (objfile_sf σ))) [] (Ok tt).
Proof.
  intros Hf Hi. unfold objfile_set_sym_fns. unfold_M. rewrite Hi. cbv beta iota.
  cbn [debug_symfile set_objfile_sf]. rewrite Hf. reflexivity.
Qed.

(** objfile_set_sym_fns when logging is on and the objfile is plain. *)
Lemma guard_run_enabled_plain (σ : state) (m : Z) (sf : option Z) :
  debug_symfile σ = true -> installed_in σ m = false ->
  objfile_set_sym_fns m sf σ =
    install_symfile_debug_logging m (set_objfile_sf σ (store_ptr m sf (objfile_sf σ))).
Proof.
  intros Hf Hi. unfold objfile_set_sym_fns. unfold_M. rewrite Hi. cbv beta iota.
  cbn [debug_symfile set_objfile_sf]. rewrite Hf.
  by destruct (install_symfile_debug_logging _ _).
Qed.

(** objfile_set_sym_fns when logging is on and the objfile is
    instrumented: uninstall, store sf, install. *)
Lemma guard_run_enabled_installed (σ : state) (m p : Z) (d : debug_sym_fns_data)
    (sf : option Z) :
  debug_symfile σ = true -> objfile_sf σ !! m = Some p -> data_key σ !! m = Some d ->
  objfile_set_sym_fns m sf σ =
    let σ1 := set_data_key
                (set_sym_fns_mem
                   (set_objfile_sf σ (store_ptr m (real_sf d) (objfile_sf σ)))
                   (delete (debug_sf d) (sym_fns_mem σ)))
                (delete m (data_key σ)) in
    install_symfile_debug_logging m (set_objfile_sf σ1 (store_ptr m sf (objfile_sf σ1))).
Proof.
  intros Hf Hs Hk.
  assert (Hi : installed_in σ m = true) by (unfold installed_in; by rewrite Hs, Hk).
  unfold objfile_set_sym_fns. unfold_M. rewrite Hi. cbv beta iota. rewrite Hf.
  cbv beta iota. rewrite (uninstall_run σ m p d Hs Hk). cbv beta iota zeta.
  cbn [debug_symfile set_objfile_sf set_data_key set_sym_fns_mem]. rewrite Hf.
  by destruct (install_symfile_debug_logging _ _).
Qed.

Lemma install_post (σ : state) (m a : Z) (t : sym_fns) :
  data_key σ !! m = None -> objfile_sf σ !! m = Some a -> sym_fns_mem σ !! a = Some t ->
  let r := install_symfile_debug_logging m σ in
  result r = Ok tt ∧ installed_in (final r) m = true ∧
  ∃ d', data_key (final r) !! m = Some d' ∧ real_sf d' = Some a ∧
    objfile_sf (final r) !! m = Some (debug_sf d') ∧
    sym_fns_mem (final r) !! debug_sf d' = Some (copy_sf_ptrs t sym_fns_zero).
Proof.
  intros Hk Hs Hm r. subst r. rewrite (install_run σ m a t Hk Hs Hm). simpl.
  unfold installed_in; simpl. rewrite !lookup_insert_eq.
  split; [done|]. split; [done|]. eexists. split; [done|]. split; [done|].
  split; [done|]. apply lookup_insert_eq.
Qed.

(** C3: in a state where a registry entry means instrumentation is
    installed and installed instrumentation means the toggle is on,
    objfile_set_sym_fns (m, sf): with the toggle on and sf pointing to a
    table T2 (not the old shadow), succeeds and leaves m instrumented with
    real_sf = sf and a shadow table built from T2; with the toggle off,
    succeeds and leaves sf as m's table and no registry entry for m. *)
Theorem set_sym_fns_guard (σ : state) (m : Z) (sf : option Z) :
  (data_key σ !! m ≠ None -> installed_in σ m = true) ->
  (installed_in σ m = true -> debug_symfile σ = true) ->
  let r := objfile_set_sym_fns m sf σ in
  (debug_symfile σ = true ->
     ∀ (a2 : Z) (t2 : sym_fns), sf = Some a2 -> sym_fns_mem σ !! a2 = Some t2 ->
     (∀ d, data_key σ !! m = Some d -> debug_sf d ≠ a2) ->
     result r = Ok tt ∧ installed_in (final r) m = true ∧
     ∃ d', data_key (final r) !! m = Some d' ∧ real_sf d' = Some a2 ∧
       objfile_sf (final r) !! m = Some (debug_sf d') ∧
       sym_fns_mem (final r) !! debug_sf d' = Some (copy_sf_ptrs t2 sym_fns_zero)) ∧
  (debug_symfile σ = false ->
     result r = Ok tt ∧ objfile_sf (final r) !! m = sf ∧ data_key (final r) !! m = None).
Proof.
  intros Hkey Hinv r. subst r. split.
  - intros Hf a2 t2 -> Hm Hne.
    destruct (installed_in σ m) eqn:Hi.
    + unfold installed_in in Hi.
      destruct (objfile_sf σ !! m) as [p|] eqn:Hs; [|done].
      destruct (data_key σ !! m) as [d|] eqn:Hk; [|done].
      rewrite (guard_run_enabled_installed σ m p d (Some a2) Hf Hs Hk). cbv zeta.
      apply install_post.
      * simpl. apply lookup_delete_eq.
      * simpl. apply lookup_insert_eq.
      * simpl. rewrite lookup_delete_ne; [done|]. by apply Hne.
    + rewrite (guard_run_enabled_plain σ m (Some a2) Hf Hi).
      apply install_post.
      * simpl. destruct (data_key σ !! m) eqn:Hk; [|done].
        exfalso. rewrite ?Hi in Hkey. by discriminate (Hkey ltac:(done)).
      * simpl. apply lookup_insert_eq.
      * simpl. done.
  - intros Hf.
    assert (Hi : installed_in σ m = false).
    { destruct (installed_in σ m) eqn:Hi; [|done]. rewrite Hinv in Hf; done. }
    rewrite (guard_run_disabled σ m sf Hf Hi). simpl.
    split; [done|]. split; [apply lookup_store_ptr|].
    destruct (data_key σ !! m) eqn:Hk; [|done].
    exfalso. rewrite ?Hi in Hkey. by discriminate (Hkey ltac:(done)).
Qed.

Lemma same_at_refl o σ : same_at o σ σ.
Proof. done. Qed.

Lemma same_at_trans o σ1 σ2 σ3 : same_at o σ1 σ2 -> same_at o σ2 σ3 -> same_at o σ1 σ3.
Proof. unfold same_at. intros (?&?&?&?) (?&?&?&?). split_and!; congruence. Qed.

Lemma same_at_installed o σ σ' : same_at o σ σ' -> installed_in σ' o = installed_in σ o.
Proof. intros (Hs&Hk&_&_). unfold installed_in. by rewrite Hs, Hk. Qed.

Lemma keeps_bind o {A B} (m : M A) (f : A -> M B) :
  keeps o m -> (∀ x, keeps o (f x)) -> keeps o (m ≫= f).
Proof.
  intros Hm Hf σ. unfold mbind, M_bind.
  specialize (Hm σ). destruct (m σ) as [σ1 ev1 [x|e]]; simpl in *; [|done].
  specialize (Hf x σ1). destruct (f x σ1) as [σ2 ev2 r2]; simpl in *.
  by eapply same_at_trans.
Qed.

Lemma keeps_fmap o {A B} (f : A -> B) (m : M A) : keeps o m -> keeps o (f <$> m).
Proof. intros Hm. apply keeps_bind; [done|]. intros x σ. done. Qed.

Lemma keeps_gets o {A} (f : state -> A) : keeps o (gets f).
Proof. done. Qed.
Lemma keeps_ret o {A} (x : A) : keeps o (mret x).
Proof. done. Qed.
Lemma keeps_fail o {A} e : keeps o (@fail A e).
Proof. done. Qed.
Lemma keeps_emit o e : keeps o (emit e).
Proof. done. Qed.
Lemma keeps_lift o {A} (r : res A) : keeps o (lift r).
Proof. done. Qed.
Lemma keeps_modify o (f : state -> state) : (∀ σ, same_at o σ (f σ)) -> keeps o (modify f).
Proof. intros H σ. apply H. Qed.

Create HintDb keeps.
#[global] Hint Resolve keeps_gets keeps_ret keeps_fail keeps_emit keeps_lift : keeps.

Ltac keeps_tac :=
  repeat match goal with
  | |- keeps _ (_ ≫= _) => apply keeps_bind; [| intros ?]
  | |- keeps _ (_ <$> _) => apply keeps_fmap
  | |- keeps _ (match ?x with _ => _ end) => destruct x
  | |- keeps _ (let _ := _ in _) => cbv zeta
  | |- keeps _ (modify _) => apply keeps_modify; intros ?
  | |- keeps _ _ => solve [eauto with keeps]
  end.

Lemma keeps_new_data o : keeps o new_debug_sym_fns_data.
Proof. unfold new_debug_sym_fns_data. keeps_tac. done. Qed.
Lemma keeps_deref o p : keeps o (deref_sf p).
Proof. unfold deref_sf. keeps_tac. Qed.
Lemma keeps_key_get o o' : keeps o (key_get o').
Proof. apply keeps_gets. Qed.
Lemma keeps_get_sf o o' : keeps o (get_sf o').
Proof. apply keeps_gets. Qed.
Lemma keeps_installed o o' : keeps o (symfile_debug_installed o').
Proof. apply keeps_gets. Qed.
Lemma keeps_assert o b msg : keeps o (gdb_assert b msg).
Proof. unfold gdb_assert. keeps_tac. Qed.
#[global] Hint Resolve keeps_new_data keeps_deref keeps_key_get keeps_get_sf
  keeps_installed keeps_assert : keeps.

Lemma keeps_key_set o o' d : o' ≠ o -> keeps o (key_set o' d).
Proof. intros Hne. unfold key_set. keeps_tac. unfold same_at; simpl. by rewrite lookup_insert_ne. Qed.
Lemma keeps_set_sf o o' p : o' ≠ o -> keeps o (set_sf o' p).
Proof. intros Hne. unfold set_sf. keeps_tac. unfold same_at; simpl. by rewrite lookup_store_ptr_ne. Qed.
Lemma keeps_key_clear o o' : o' ≠ o -> keeps o (key_clear o').
Proof.
  intros Hne. unfold key_clear. keeps_tac. case_match; [|done].
  unfold same_at; simpl. by rewrite lookup_delete_ne.
Qed.

#[global] Hint Resolve keeps_key_set keeps_set_sf keeps_key_clear : keeps.

Lemma keeps_install o o' : o' ≠ o -> keeps o (install_symfile_debug_logging o').
Proof. intros Hne. unfold install_symfile_debug_logging. keeps_tac. done. Qed.

Lemma keeps_uninstall o o' : o' ≠ o -> keeps o (uninstall_symfile_debug_logging o').
Proof. intros Hne. unfold uninstall_symfile_debug_logging. keeps_tac. Qed.

Lemma set_debug_symfile_one_noop (σ : state) (o : Z) :
  installed_in σ o = debug_symfile σ -> set_debug_symfile_one o σ = Run σ [] (Ok tt).
Proof.
  intros H. unfold set_debug_symfile_one. unfold_M. rewrite H.
  by destruct (debug_symfile σ).
Qed.

#[global] Hint Resolve keeps_install keeps_uninstall : keeps.

Lemma keeps_set_debug_symfile_one o o' : o' ≠ o -> keeps o (set_debug_symfile_one o').
Proof. intros Hne. unfold set_debug_symfile_one. keeps_tac. Qed.

Lemma set_debug_symfile_loop_keeps (o : Z) (os : list Z) (σ : state) :
  installed_in σ o = debug_symfile σ -> same_at o σ (final (set_debug_symfile_loop os σ)).
Proof.
  revert σ. induction os as [|o' os IH]; intros σ H; simpl; [done|].
  assert (H1 : same_at o σ (final (set_debug_symfile_one o' σ))).
  { destruct (decide (o' = o)) as [->|Hne].
    - rewrite set_debug_symfile_one_noop by done. done.
    - by apply keeps_set_debug_symfile_one. }
  unfold mbind, M_bind.
  destruct (set_debug_symfile_one o' σ) as [σ1 ev1 [x|e]]; simpl in *; [|done].
  assert (H2 : same_at o σ1 (final (set_debug_symfile_loop os σ1))).
  { apply IH. rewrite (same_at_installed o σ σ1 H1). destruct H1 as (_&_&->&_). done. }
  destruct (set_debug_symfile_loop os σ1) as [σ2 ev2 r2]; simpl in *.
  by eapply same_at_trans.
Qed.

(** C8: when an objfile's instrumentation already matches the toggle,
    running set_debug_symfile leaves its sf, its registry entry and its
    installed state unchanged. *)
Theorem set_debug_symfile_idempotent (σ : state) (o : Z) :
  installed_in σ o = debug_symfile σ ->
  let σ' := final (set_debug_symfile σ) in
  objfile_sf σ' !! o = objfile_sf σ !! o ∧ data_key σ' !! o = data_key σ !! o ∧
  installed_in σ' o = installed_in σ o.
Proof.
  intros H σ'. subst σ'. unfold set_debug_symfile, mbind, M_bind, gets.
  pose proof (set_debug_symfile_loop_keeps o (objfiles σ) σ H) as Hk.
  destruct (set_debug_symfile_loop (objfiles σ) σ) as [σ2 ev2 r2]; simpl in *.
  split; [apply Hk|]. split; [apply Hk|]. by apply same_at_installed.
Qed.

(** C9: when objfile->qf is NULL, every query method succeeds with its
    neutral value (false, NULL, language_unknown, or nothing), makes no
    call through qf, and changes no state except that
    lookup_global_symbol_language stores false through symbol_found_p. *)
Theorem queries_total_without_qf
    (quick : Z -> string -> list Z -> res (Z * list (Z * bool)))
    (σ : state) (this : Z) (q : query) :
  objfile_qf σ !! this = None ->
  let r := run_query quick this q σ in
  result r = Ok (query_default q) ∧ Forall (fun e => is_qf_call e = false) (events r) ∧
  final r = query_default_state q σ.
Proof.
  intros Hq r. subst r.
  destruct q; cbn [run_query].
  all: unfold has_partial_symbols, find_last_source_symtab, forget_cached_source_info,
      map_symtabs_matching_filename, lookup_symbol, print_stats, dump,
      expand_symtabs_for_function, expand_all_symtabs, expand_symtabs_with_fullname,
      map_matching_symbols, expand_symtabs_matching, find_pc_sect_compunit_symtab,
      map_symbol_filenames, find_compunit_symtab_by_address,
      lookup_global_symbol_language, debug_log, get_qf, get_flags, log_line,
      fmap, M_fmap.
  all: unfold_M.
  all: rewrite ?Hq; cbv beta iota.
  all: destruct (debug_symfile σ) eqn:Hf; cbv beta iota; rewrite ?Hq; cbv beta iota;
    try destruct (Z.land _ _ =? 0); cbv beta iota; rewrite ?Hf; simpl.
  all: repeat split; repeat constructor.
Qed.

Lemma final_bind {A B} (m : M A) (f : A -> M B) (σ : state) :
  final ((m ≫= f) σ) =
    match result (m σ) with Ok x => final (f x (final (m σ))) | Fail _ => final (m σ) end.
Proof.
  unfold mbind, M_bind. destruct (m σ) as [σ1 ev1 [x|e]]; simpl; [|done].
  by destruct (f x σ1).
Qed.

Lemma ka_same os σ σ' : (∀ o, same_at o σ σ') -> keys_accounted os σ -> keys_accounted os σ'.
Proof.
  intros Hs H o d Hd. destruct (Hs o) as (E1&E2&E3&E4). rewrite E2 in Hd.
  rewrite E1, E3, E4. by apply (H o d).
Qed.

Lemma ka_key_none os σ o : keys_accounted os σ -> installed_in σ o = false -> data_key σ !! o = None.
Proof.
  intros H Hi. destruct (data_key σ !! o) as [d|] eqn:E; [|done].
  destruct (H o d E) as (_&[p Hp]&_). unfold installed_in in Hi. by rewrite Hp, E in Hi.
Qed.

Lemma ka_set_sf os σ o p :
  data_key σ !! o = None -> keys_accounted os σ ->
  keys_accounted os (set_objfile_sf σ (store_ptr o p (objfile_sf σ))).
Proof.
  intros Hn H o' d Hd. cbn [set_objfile_sf data_key objfiles objfile_sf debug_symfile] in *.
  destruct (decide (o' = o)) as [->|Hne]; [congruence|].
  rewrite lookup_store_ptr_ne by done. by apply (H o' d).
Qed.

Lemma ka_mem os σ m : keys_accounted os σ -> keys_accounted os (set_sym_fns_mem σ m).
Proof. done. Qed.

Lemma install_ka os σ o :
  debug_symfile σ = true -> o ∈ objfiles σ -> keys_accounted os σ ->
  keys_accounted os (final (install_symfile_debug_logging o σ)).
Proof.
  intros Hf Ho H.
  destruct (installed_in σ o) eqn:Hi.
  { unfold install_symfile_debug_logging. unfold_M. rewrite Hi. done. }
  pose proof (ka_key_none os σ o H Hi) as Hk.
  unfold install_symfile_debug_logging. unfold_M. rewrite Hi. simpl.
  destruct (objfile_sf σ !! o) as [a|] eqn:Hs; simpl; [|by apply ka_mem].
  destruct (<[_ := _]> (sym_fns_mem σ) !! a) as [t|]; simpl; [|by apply ka_mem].
  rewrite lookup_insert_eq. simpl.
  intros o' d' Hd'. cbn [set_objfile_sf set_data_key set_sym_fns_mem data_key objfiles
    objfile_sf debug_symfile] in *.
  destruct (decide (o' = o)) as [->|Hne].
  - rewrite ?lookup_store_ptr, ?lookup_insert_eq. split_and!; [done | by eexists | by left].
  - rewrite lookup_insert_ne in Hd' by done.
    rewrite ?lookup_store_ptr_ne, ?lookup_insert_ne by done.
    by apply (H o' d').
Qed.

Lemma uninstall_ka os os' σ o :
  installed_in σ o = true -> (∀ o', o' ≠ o -> o' ∈ os -> o' ∈ os') ->
  keys_accounted os σ -> keys_accounted os' (final (uninstall_symfile_debug_logging o σ)).
Proof.
  intros Hi Hos H. unfold installed_in in Hi.
  destruct (objfile_sf σ !! o) as [p|] eqn:Hs; [|done].
  destruct (data_key σ !! o) as [d|] eqn:Hk; [|done].
  rewrite (uninstall_run σ o p d Hs Hk). simpl.
  intros o' d' Hd'. cbn [set_objfile_sf set_data_key set_sym_fns_mem data_key objfiles
    objfile_sf debug_symfile] in *.
  destruct (decide (o' = o)) as [->|Hne]; [by rewrite lookup_delete_eq in Hd'|].
  rewrite lookup_delete_ne in Hd' by done. rewrite lookup_store_ptr_ne by done.
  destruct (H o' d' Hd') as (?&?&[?|?]); split_and!; auto.
Qed.

Lemma set_sym_fns_ka σ o sf :
  o ∈ objfiles σ -> keys_accounted [] σ ->
  keys_accounted [] (final (objfile_set_sym_fns o sf σ)).
Proof.
  intros Ho H.
  destruct (installed_in σ o) eqn:Hi.
  - pose proof Hi as Hi'. unfold installed_in in Hi'.
    destruct (objfile_sf σ !! o) as [p|] eqn:Hs; [|done].
    destruct (data_key σ !! o) as [d|] eqn:Hk; [|done].
    assert (Hf : debug_symfile σ = true).
    { destruct (H o d Hk) as (_&_&[?|Hn]); [done|]. by apply elem_of_nil in Hn. }
    rewrite (guard_run_enabled_installed σ o p d sf Hf Hs Hk). cbv zeta.
    apply install_ka; [done|done|].
    apply ka_set_sf; [by cbn; rewrite lookup_delete_eq|].
    pose proof (uninstall_ka [] [] σ o Hi (fun _ _ h => h) H) as Hu.
    by rewrite (uninstall_run σ o p d Hs Hk) in Hu.
  - pose proof (ka_key_none [] σ o H Hi) as Hk.
    destruct (debug_symfile σ) eqn:Hf.
    + rewrite (guard_run_enabled_plain σ o sf Hf Hi).
      apply install_ka; [done|done|]. by apply ka_set_sf.
    + rewrite (guard_run_disabled σ o sf Hf Hi). simpl. by apply ka_set_sf.
Qed.

Lemma set_debug_symfile_one_plain σ o :
  debug_symfile σ = true -> installed_in σ o = false ->
  set_debug_symfile_one o σ = install_symfile_debug_logging o σ.
Proof.
  intros Hf Hi. unfold set_debug_symfile_one. unfold_M. rewrite Hf, Hi. cbn [negb].
  by destruct (install_symfile_debug_logging o σ).
Qed.

Lemma set_debug_symfile_one_installed σ o :
  debug_symfile σ = false -> installed_in σ o = true ->
  set_debug_symfile_one o σ = uninstall_symfile_debug_logging o σ.
Proof.
  intros Hf Hi. unfold set_debug_symfile_one. unfold_M. rewrite Hf, Hi. cbn [negb].
  by destruct (uninstall_symfile_debug_logging o σ).
Qed.

Lemma step_frame σ o : ∃ o', o' ≠ o ∧ same_at o' σ (final (set_debug_symfile_one o σ)).
Proof.
  exists (o + 1). split; [lia|]. apply keeps_set_debug_symfile_one. lia.
Qed.

Lemma loop_on_ka os σ :
  debug_symfile σ = true -> (∀ o, o ∈ os -> o ∈ objfiles σ) -> keys_accounted [] σ ->
  keys_accounted [] (final (set_debug_symfile_loop os σ)).
Proof.
  revert σ. induction os as [|o os IH]; intros σ Hf Hos H; [done|].
  assert (H1 : keys_accounted [] (final (set_debug_symfile_one o σ))).
  { destruct (installed_in σ o) eqn:Hi.
    - by rewrite set_debug_symfile_one_noop by (by rewrite Hi).
    - rewrite set_debug_symfile_one_plain by done.
      apply install_ka; [done | apply Hos; by left | done]. }
  destruct (step_frame σ o) as (o'&_&(_&_&Ef&Eo)).
  cbn [set_debug_symfile_loop]. rewrite final_bind.
  destruct (result (set_debug_symfile_one o σ)); [|done].
  apply IH; [congruence | | done].
  intros o1 Ho1. rewrite Eo. apply Hos. by right.
Qed.

Lemma loop_off_ka os σ :
  debug_symfile σ = false -> keys_accounted os σ ->
  keys_accounted [] (final (set_debug_symfile_loop os σ)).
Proof.
  revert σ. induction os as [|o os IH]; intros σ Hf H; [done|].
  cbn [set_debug_symfile_loop]. rewrite final_bind.
  destruct (installed_in σ o) eqn:Hi.
  - rewrite set_debug_symfile_one_installed by done.
    unfold installed_in in Hi.
    destruct (objfile_sf σ !! o) as [p|] eqn:Hs; [|done].
    destruct (data_key σ !! o) as [d|] eqn:Hk; [|done].
    pose proof (uninstall_ka (o :: os) os σ o) as Hu.
    rewrite (uninstall_run σ o p d Hs Hk) in Hu |- *. simpl.
    apply IH; [done|]. apply Hu; [by unfold installed_in; rewrite Hs, Hk| |done].
    intros o' Hne Ho'. apply elem_of_cons in Ho' as [->|?]; [done|done].
  - rewrite set_debug_symfile_one_noop by (by rewrite Hi). simpl.
    apply IH; [done|].
    pose proof (ka_key_none _ σ o H Hi) as Hk.
    intros o' d Hd. destruct (H o' d Hd) as (?&?&[?|Ho']); split_and!; auto.
    apply elem_of_cons in Ho' as [->|?]; [congruence|by right].
Qed.

Lemma set_debug_symfile_cmd_ka σ b :
  keys_accounted [] σ -> keys_accounted [] (final (set_debug_symfile_cmd b σ)).
Proof.
  intros H.
  assert (E : final (set_debug_symfile_cmd b σ) =
              final (set_debug_symfile_loop (objfiles σ) (set_debug_symfile_var σ b))).
  { unfold set_debug_symfile_cmd, set_debug_symfile. unfold_M.
    by destruct (set_debug_symfile_loop _ _). }
  rewrite E. destruct b.
  - apply loop_on_ka; [done|done|].
    intros o d Hd. destruct (H o d Hd) as (?&?&_). split_and!; auto.
  - apply loop_off_ka; [done|].
    intros o d Hd. destruct (H o d Hd) as (?&?&_). split_and!; auto.
Qed.

Lemma keeps_run_query quick this q o : keeps o (run_query quick this q).
Proof.
  destruct q; cbn [run_query];
    unfold has_partial_symbols, find_last_source_symtab, forget_cached_source_info,
      map_symtabs_matching_filename, lookup_symbol, print_stats, dump,
      expand_symtabs_for_function, expand_all_symtabs, expand_symtabs_with_fullname,
      map_matching_symbols, expand_symtabs_matching, find_pc_sect_compunit_symtab,
      map_symbol_filenames, find_compunit_symtab_by_address,
      lookup_global_symbol_language, debug_log, get_qf, get_flags, log_line,
      qf_bool, qf_call;
    keeps_tac; done.
Qed.

Lemma reachable_ka σ : reachable σ -> keys_accounted [] σ.
Proof.
  induction 1 as [σ Hk | σ o Ho _ IH | σ o sf Ho _ IH | σ b _ IH | quick σ o q _ IH].
  - intros o d Hd. by rewrite Hk, lookup_empty in Hd.
  - intros o' d Hd. cbn [add_objfile data_key objfiles objfile_sf debug_symfile] in *.
    destruct (IH o' d Hd) as (Hin&Hs&Hf).
    assert (o' ≠ o) by (intros ->; done).
    rewrite lookup_delete_ne by done. split_and!; [|done|done].
    apply elem_of_app. by left.
  - by apply set_sym_fns_ka.
  - by apply set_debug_symfile_cmd_ka.
  - apply (ka_same _ σ); [|done]. intros o'. apply keeps_run_query.
Qed.

(** C10: objfile_set_sym_fns on an instrumented objfile with the toggle
    off aborts with the assertion "debug_symfile", state unchanged; and in
    every reachable state an instrumented objfile has the toggle on, so
    that assertion always holds when the guard reaches it. *)
Theorem guard_asserts_toggle :
  (∀ (σ : state) (o : Z) (sf : option Z),
     installed_in σ o = true -> debug_symfile σ = false ->
     objfile_set_sym_fns o sf σ = Run σ [] (Fail (Assert_fail "debug_symfile"))) ∧
  (∀ (σ : state) (o : Z), reachable σ -> installed_in σ o = true -> debug_symfile σ = true).
Proof.
  split.
  - intros σ o sf Hi Hf. unfold objfile_set_sym_fns. unfold_M. rewrite Hi. cbv beta iota.
    by rewrite Hf.
  - intros σ o Hr Hi. pose proof (reachable_ka σ Hr) as H. unfold installed_in in Hi.
    destruct (objfile_sf σ !! o); [|done].
    destruct (data_key σ !! o) as [d|] eqn:Hk; [|done].
    destruct (H o d Hk) as (_&_&[?|Hn]); [done|]. by apply elem_of_nil in Hn.
Qed.

(* ------------------------------------------------------------------ *)
(* The theorems at concrete inputs                                    *)
(* ------------------------------------------------------------------ *)

Lemma install_preserves_absence_witness :
  data_key (Sample.loaded false) !! 7 = None ∧
  objfile_sf (Sample.loaded false) !! 7 = Some 100 ∧
  sym_fns_mem (Sample.loaded false) !! 100 = Some Sample.table ∧
  result (install_symfile_debug_logging 7 (Sample.loaded false)) = Ok tt.
Proof.
  split_and!; [reflexivity | reflexivity | reflexivity |].
  exact (proj1 (install_preserves_absence (Sample.loaded false) 7 100 Sample.table
                  eq_refl eq_refl eq_refl)).
Defined.

Lemma relocate_and_probes_log_after_call_witness :
  call_code Sample.throwing_backend 2 (Debug Prelocate) [7; 10; 11] Sample.instrumented =
    Run Sample.instrumented [Forward 5%nat [7; 10; 11]] (Fail (Thrown 9)).
Proof.
  apply (proj1 (relocate_and_probes_log_after_call Sample.throwing_backend
                  Sample.instrumented 7 100 {| real_sf := Some 100; debug_sf := 101 |}
                  Sample.table 0 eq_refl eq_refl eq_refl) 5%nat 10 11 9);
    reflexivity.
Defined.

Lemma set_sym_fns_guard_witness :
  result (objfile_set_sym_fns 7 (Some 100) Sample.instrumented) = Ok tt ∧
  installed_in (final (objfile_set_sym_fns 7 (Some 100) Sample.instrumented)) 7 = true.
Proof.
  destruct (set_sym_fns_guard Sample.instrumented 7 (Some 100)) as [Hon _].
  - intros _. reflexivity.
  - intros _. reflexivity.
  - destruct (Hon eq_refl 100 Sample.table eq_refl eq_refl) as (Hr&Hi&_).
    + intros d Hd. vm_compute in Hd. injection Hd as <-. simpl. lia.
    + split; [exact Hr | exact Hi].
Defined.

Lemma install_uninstall_roundtrip_witness :
  final ((install_symfile_debug_logging 7;; uninstall_symfile_debug_logging 7)
           (Sample.loaded false)) = Sample.loaded false.
Proof.
  exact (proj2 (proj2 (proj2 (install_uninstall_roundtrip (Sample.loaded false) 7 100
                                Sample.table eq_refl eq_refl eq_refl)))).
Defined.

Lemma install_uninstall_assertions_witness :
  install_symfile_debug_logging 7 Sample.instrumented =
    Run Sample.instrumented [] (Fail (Assert_fail "!symfile_debug_installed (objfile)")) ∧
  uninstall_symfile_debug_logging 7 (Sample.loaded false) =
    Run (Sample.loaded false) [] (Fail (Assert_fail "symfile_debug_installed (objfile)")).
Proof.
  split.
  - apply (proj1 (install_uninstall_assertions Sample.instrumented 7)). reflexivity.
  - apply (proj1 (proj2 (proj2 (install_uninstall_assertions (Sample.loaded false) 7)))).
    reflexivity.
Defined.

Lemma shadow_forwarding_witness :
  result (call_code Sample.backend 2 (Debug Prelocate) [7; 10; 11] Sample.instrumented) =
  result (call_code Sample.backend 1 (Backend 5) [7; 10; 11] Sample.instrumented).
Proof.
  apply (shadow_forwarding Sample.backend Sample.instrumented 7 100
           {| real_sf := Some 100; debug_sf := 101 |} Sample.table Prelocate (Backend 5)
           [10; 11] 1); try reflexivity; discriminate.
Defined.

Lemma set_debug_symfile_idempotent_witness :
  objfile_sf (final (set_debug_symfile Sample.instrumented)) !! 7 = Some 101.
Proof.
  exact (proj1 (set_debug_symfile_idempotent Sample.instrumented 7 eq_refl)).
Defined.

Lemma queries_total_without_qf_witness :
  result (run_query (fun _ _ _ => Fail Bad_call) 7 (Q_lookup_global_symbol_language 1 2 3)
            (Sample.loaded true)) = Ok (QLang language_unknown).
Proof.
  exact (proj1 (queries_total_without_qf (fun _ _ _ => Fail Bad_call) (Sample.loaded true) 7
                  (Q_lookup_global_symbol_language 1 2 3) eq_refl)).
Defined.

Lemma guard_asserts_toggle_witness :
  objfile_set_sym_fns 7 None (set_debug_symfile_var Sample.instrumented false) =
    Run (set_debug_symfile_var Sample.instrumented false) []
        (Fail (Assert_fail "debug_symfile")) ∧
  debug_symfile (final (set_debug_symfile_cmd true (Sample.loaded false))) = true.
Proof.
  split.
  - apply (proj1 guard_asserts_toggle); reflexivity.
  - apply (proj2 guard_asserts_toggle _ 7).
    + apply reach_set_debug, reach_start. reflexivity.
    + vm_compute. reflexivity.
Defined.

(* ------------------------------------------------------------------ *)
(* Counterexamples                                                    *)
(* ------------------------------------------------------------------ *)

(** Install on an objfile whose sf is NULL: the precondition "sf is
    non-null" fails, yet no assertion fires; *real_sf is dereferenced. *)
Lemma install_null_sf_counterexample :
  objfile_sf Sample.unread !! 7 = None ∧
  result (install_symfile_debug_logging 7 Sample.unread) = Fail Null_deref.
Proof. split; vm_compute; reflexivity. Qed.

(** The segments slot is populated in Sample.table; called directly it
    returns, called through the shadow table it aborts. *)
Lemma segments_not_forwarded_counterexample :
  sym_segments Sample.table = Some (Backend 4) ∧
  sym_segments (copy_sf_ptrs Sample.table sym_fns_zero) = Some (Debug Psegments) ∧
  result (call_code Sample.backend 1 (Backend 4) [7] Sample.instrumented) = Ok RVoid ∧
  result (call_code Sample.backend 1 (Debug Psegments) [7] Sample.instrumented) =
    Fail (Assert_fail "debug_sym_segments called").
Proof. split_and!; vm_compute; reflexivity. Qed.

(* ------------------------------------------------------------------ *)
(* Further properties of the code                                     *)
(* ------------------------------------------------------------------ *)

(** The six void proxies print their line first and then hand the call to
    the original: the shadow call's events are that one line followed by
    the direct call's events, whether or not the original returns. *)
Theorem void_proxies_log_before_call (backend : nat -> list Z -> res ret) (σ : state)
    (o a : Z) (d : debug_sym_fns_data) (t : sym_fns) (p : proxy) (c : code)
    (xs : list Z) (k : nat) :
  data_key σ !! o = Some d -> real_sf d = Some a -> sym_fns_mem σ !! a = Some t ->
  forwarded_code t p = Some c ->
  In p [Pnew_init; Pinit; Pread; Pfinish; Poffsets; Pread_linetable] ->
  length xs = proxy_nargs p ->
  let direct := call_code backend k c (o :: xs) σ in
  let shadow := call_code backend (S k) (Debug p) (o :: xs) σ in
  result shadow = result direct ∧ final shadow = final direct ∧
  ∃ fmt vs, events shadow = Line fmt vs :: events direct.
Proof.
  intros Hk Hd Hm Hc Hp Hn direct shadow. subst direct shadow.
  destruct Hp as [<-|[<-|[<-|[<-|[<-|[<-|[]]]]]]]; simpl in Hc, Hn;
    repeat (destruct xs as [|? xs]; simpl in Hn; try discriminate);
    cbn [call_code run_proxy];
    unfold debug_sym_new_init, debug_sym_init, debug_sym_read, debug_sym_finish,
      debug_sym_offsets, debug_sym_read_linetable, real_field, log_line;
    unfold_M; rewrite Hk; cbv beta iota; rewrite Hd; cbv beta iota; rewrite Hm;
    cbv beta iota; rewrite Hc; cbv beta iota.
  all: destruct (call_code backend k c _ σ) as [σ' ev r]; simpl.
  all: split; [done|]; split; [done|]; eauto.
Qed.

(** relocate and the probe query, when the original returns, hand back its
    value and print one line after the original's events, naming the
    returned pointer. *)
Theorem relocate_and_probes_log_result (backend : nat -> list Z -> res ret) (σ σ' : state)
    (o a : Z) (d : debug_sym_fns_data) (t : sym_fns) (c : code) (k : nat)
    (ev : list event) (r : ret) :
  data_key σ !! o = Some d -> real_sf d = Some a -> sym_fns_mem σ !! a = Some t ->
  let v := match r with RVal x => x | RVoid => 0 end in
  (∀ sectp buf, sym_relocate t = Some c ->
     call_code backend k c [o; sectp; buf] σ = Run σ' ev (Ok r) ->
     call_code backend (S k) (Debug Prelocate) [o; sectp; buf] σ =
       Run σ' (ev ++ [Line "sf->sym_relocate (%s, %s, %s) = %s"
                        [VObj o; VAddr sectp; VAddr buf; VAddr v]]) (Ok r)) ∧
  (forwarded_code t Pget_probes = Some c ->
     call_code backend k c [o] σ = Run σ' ev (Ok r) ->
     call_code backend (S k) (Debug Pget_probes) [o] σ =
       Run σ' (ev ++ [Line "probes->sym_get_probes (%s) = %s" [VObj o; VAddr v]]) (Ok r)).
Proof.
  intros Hk Hd Hm v. split.
  - intros sectp buf Hc He.
    cbn [call_code run_proxy]. unfold debug_sym_relocate, real_field, log_line.
    unfold_M. rewrite Hk; cbv beta iota; rewrite Hd; cbv beta iota; rewrite Hm;
    cbv beta iota; rewrite Hc; cbv beta iota. rewrite He. simpl.
    rewrite ?app_nil_r. reflexivity.
  - intros Hc He. simpl in Hc.
    cbn [call_code run_proxy]. unfold debug_sym_get_probes, real_probe_field, log_line.
    unfold_M. rewrite Hk; cbv beta iota; rewrite Hd; cbv beta iota; rewrite Hm;
    cbv beta iota. destruct (sym_probe_fns t) as [pt|]; [|discriminate].
    cbv beta iota. rewrite Hc; cbv beta iota. rewrite He. simpl.
    rewrite ?app_nil_r. reflexivity.
Qed.

(** A proxy reached for an objfile that has no registry entry dereferences
    the missing datum: the call fails with a NULL dereference and leaves
    the state unchanged; the void proxies have printed their line by then,
    relocate and the probe query have printed nothing. *)
Theorem proxies_without_datum (backend : nat -> list Z -> res ret) (σ : state)
    (o : Z) (p : proxy) (xs : list Z) (k : nat) :
  data_key σ !! o = None -> p ≠ Psegments -> length xs = proxy_nargs p ->
  let r := call_code backend (S k) (Debug p) (o :: xs) σ in
  result r = Fail Null_deref ∧ final r = σ ∧
  (p = Prelocate ∨ p = Pget_probes -> events r = []) ∧
  (p ≠ Prelocate -> p ≠ Pget_probes -> ∃ fmt vs, events r = [Line fmt vs]).
Proof.
  intros Hk Hp Hn r. subst r.
  destruct p; try congruence; simpl in Hn;
    repeat (destruct xs as [|? xs]; simpl in Hn; try discriminate);
    cbn [call_code run_proxy];
    unfold debug_sym_new_init, debug_sym_init, debug_sym_read, debug_sym_finish,
      debug_sym_offsets, debug_sym_read_linetable, debug_sym_relocate,
      debug_sym_get_probes, real_field, real_probe_field, log_line;
    unfold_M; rewrite Hk; cbv beta iota; simpl.
  all: split_and!; try done; try (intros [? | ?]; discriminate); eauto.
Qed.

Ltac unfold_queries :=
  unfold has_partial_symbols, find_last_source_symtab, forget_cached_source_info,
    map_symtabs_matching_filename, lookup_symbol, print_stats, dump,
    expand_symtabs_for_function, expand_all_symtabs, expand_symtabs_with_fullname,
    map_matching_symbols, expand_symtabs_matching, find_pc_sect_compunit_symtab,
    map_symbol_filenames, find_compunit_symtab_by_address,
    lookup_global_symbol_language, debug_log, get_qf, get_flags, log_line,
    qf_bool, qf_call, fmap, M_fmap.

(** With debug_symfile off and a qf present, every query method but
    has_partial_symbols makes exactly one call, to its own qf method with
    the objfile and its own arguments, prints nothing, and hands back that
    method's answer (a nonzero value read as true for the bool method) with
    the bool objects the method stored; if the method throws, so does the
    query, with the state unchanged. *)
Theorem queries_forward_when_quiet
    (quick : Z -> string -> list Z -> res (Z * list (Z * bool)))
    (σ : state) (this qq : Z) (q : query) :
  debug_symfile σ = false -> objfile_qf σ !! this = Some qq -> q ≠ Q_has_partial_symbols ->
  run_query quick this q σ =
    match quick qq (query_method q) (query_args this q) with
    | Ok (v, writes) =>
        Run (store_bools σ writes) [Qf_call qq (query_method q) (query_args this q)]
            (Ok (query_value q v))
    | Fail e => Run σ [Qf_call qq (query_method q) (query_args this q)] (Fail e)
    end.
Proof.
  intros Hf Hq Hne.
  destruct q; try congruence; cbn [run_query query_method query_args query_value];
    unfold_queries; unfold_M; rewrite ?Hf; cbv beta iota; rewrite ?Hq; cbv beta iota.
  all: destruct (quick qq _ _) as [[v ws]|e]; cbv beta iota; simpl; rewrite ?Hf; done.
Qed.

(** has_partial_symbols: when OBJF_PSYMTABS_READ is clear it first asks
    qf->can_lazily_read_symbols, and a nonzero answer is the result, true,
    without asking qf->has_symbols; otherwise (the flag set, or a zero
    answer) the result is qf->has_symbols (this). *)
Theorem has_partial_symbols_decision
    (quick : Z -> string -> list Z -> res (Z * list (Z * bool)))
    (σ : state) (this qq : Z) :
  objfile_qf σ !! this = Some qq ->
  let flags := default 0 (objfile_flags σ !! this) in
  let r := run_query quick this Q_has_partial_symbols σ in
  (Z.land flags OBJF_PSYMTABS_READ = 0 ->
     ∀ v ws, quick qq "can_lazily_read_symbols" [] = Ok (v, ws) -> v ≠ 0 ->
     result r = Ok (QBool true) ∧
     filter (fun e => is_qf_call e = true) (events r) =
       [Qf_call qq "can_lazily_read_symbols" []]) ∧
  (Z.land flags OBJF_PSYMTABS_READ = 0 ->
     ∀ ws v ws', quick qq "can_lazily_read_symbols" [] = Ok (0, ws) ->
     quick qq "has_symbols" [this] = Ok (v, ws') ->
     result r = Ok (QBool (negb (v =? 0))) ∧
     filter (fun e => is_qf_call e = true) (events r) =
       [Qf_call qq "can_lazily_read_symbols" []; Qf_call qq "has_symbols" [this]]) ∧
  (Z.land flags OBJF_PSYMTABS_READ ≠ 0 ->
     ∀ v ws, quick qq "has_symbols" [this] = Ok (v, ws) ->
     result r = Ok (QBool (negb (v =? 0))) ∧
     filter (fun e => is_qf_call e = true) (events r) = [Qf_call qq "has_symbols" [this]]).
Proof.
  intros Hq flags r. subst r flags.
  cbn [run_query]. unfold_queries. unfold_M. rewrite Hq. cbv beta iota.
  split_and!.
  - intros Hz v ws Hc Hv. rewrite Hz. cbv beta iota. rewrite Hc. simpl.
    destruct (v =? 0) eqn:E; [apply Z.eqb_eq in E; done|]. simpl.
    destruct (debug_symfile _); simpl; done.
  - intros Hz ws v ws' Hc Hh. rewrite Hz. cbv beta iota. rewrite Hc. simpl.
    rewrite ?Hq. cbv beta iota. rewrite Hh. simpl.
    destruct (debug_symfile _); simpl; done.
  - intros Hz v ws Hh. apply Z.eqb_neq in Hz. rewrite Hz. cbv beta iota. simpl.
    rewrite ?Hq. cbv beta iota. rewrite Hh. simpl.
    destruct (debug_symfile _); simpl; done.
Qed.

Lemma events_bind_head {A B} (m : M A) (f : A -> M B) (σ : state) (e : event) :
  (∃ rest, events (m σ) = e :: rest) -> ∃ rest, events ((m ≫= f) σ) = e :: rest.
Proof.
  unfold mbind, M_bind. intros [rest Hr].
  destruct (m σ) as [σ1 ev1 [x|er]]; simpl in *; subst ev1; [|eauto].
  destruct (f x σ1); simpl. eauto.
Qed.

(** With debug_symfile off, no query method prints a line, whatever qf
    is and whatever its methods do. *)
Theorem queries_silent_when_off
    (quick : Z -> string -> list Z -> res (Z * list (Z * bool)))
    (σ : state) (this : Z) (q : query) :
  debug_symfile σ = false ->
  Forall (fun e => is_line e = false) (events (run_query quick this q σ)).
Proof.
  intros Hf.
  destruct q; cbn [run_query]; unfold_queries; unfold_M; rewrite ?Hf; cbv beta iota.
  all: destruct (objfile_qf σ !! this) as [qq|]; cbv beta iota; rewrite ?Hf; cbv beta iota.
  all: try destruct (Z.land _ _ =? 0); cbv beta iota.
  all: repeat (first [ destruct (quick _ _ _) as [[? ?]|?] | destruct (negb _)];
               cbv beta iota; simpl; rewrite ?Hf; cbv beta iota).
  all: simpl; rewrite ?Hf; simpl; repeat constructor.
Qed.

(** With debug_symfile on, every query method but has_partial_symbols and
    lookup_global_symbol_language prints its line before it consults qf,
    so the line is there even when the qf method throws;
    lookup_global_symbol_language prints nothing at all. *)
Theorem queries_log_before_qf
    (quick : Z -> string -> list Z -> res (Z * list (Z * bool)))
    (σ : state) (this : Z) (q : query) :
  debug_symfile σ = true ->
  let r := run_query quick this q σ in
  (q ≠ Q_has_partial_symbols -> (∀ n d p, q ≠ Q_lookup_global_symbol_language n d p) ->
   ∃ fmt vs rest, events r = Line fmt vs :: rest) ∧
  (∀ n d p, q = Q_lookup_global_symbol_language n d p ->
   Forall (fun e => is_line e = false) (events r)).
Proof.
  intros Hf r. subst r. split.
  - intros Hh Hl.
    destruct q; [congruence| | | | | | | | | | | | | | | exfalso; by eapply Hl];
      cbn [run_query]; do 2 eexists; unfold fmap, M_fmap;
      apply events_bind_head; apply events_bind_head;
      unfold debug_log, log_line; unfold_M; rewrite Hf; simpl; eauto.
  - intros n d p ->. cbn [run_query]. unfold_queries. unfold_M.
    destruct (objfile_qf σ !! this) as [qq|]; cbv beta iota; simpl; [|constructor].
    destruct (quick _ _ _) as [[? ?]|?]; simpl; repeat constructor.
Qed.

(** has_partial_symbols prints only once qf has answered: its events are
    the qf calls, then, when it returns b and debug_symfile is on, the one
    line "qf->has_symbols (%s) = %d" with b; if a qf method throws, nothing
    is printed. *)
Theorem has_partial_symbols_logs_after
    (quick : Z -> string -> list Z -> res (Z * list (Z * bool)))
    (σ : state) (this : Z) :
  let r := run_query quick this Q_has_partial_symbols σ in
  ∃ pre, Forall (fun e => is_qf_call e = true) pre ∧
    events r = pre ++ match result r with
                      | Ok (QBool b) =>
                          if debug_symfile σ
                          then [Line "qf->has_symbols (%s) = %d" [VObj this; VInt (Z.b2z b)]]
                          else []
                      | _ => []
                      end.
Proof.
  cbn zeta. cbn [run_query]. unfold_queries. unfold_M.
  destruct (objfile_qf σ !! this) as [qq|]; cbv beta iota;
    [| destruct (Z.land _ _ =? 0); simpl; destruct (debug_symfile σ); exists []; done].
  destruct (Z.land _ _ =? 0); cbv beta iota.
  - destruct (quick qq "can_lazily_read_symbols" []) as [[v ws]|e]; simpl;
      [| exists [Qf_call qq "can_lazily_read_symbols" []]; split; [repeat constructor|done]].
    destruct (negb (v =? 0)); simpl.
    + destruct (debug_symfile σ); exists [Qf_call qq "can_lazily_read_symbols" []];
        (split; [repeat constructor|done]).
    + destruct (quick qq "has_symbols" [this]) as [[v' ws']|e]; simpl;
        destruct (debug_symfile σ);
        exists [Qf_call qq "can_lazily_read_symbols" []; Qf_call qq "has_symbols" [this]];
        (split; [repeat constructor|done]).
  - destruct (quick qq "has_symbols" [this]) as [[v' ws']|e]; simpl;
      destruct (debug_symfile σ); exists [Qf_call qq "has_symbols" [this]];
      (split; [repeat constructor|done]).
Qed.

(** Install never overwrites a table that is already in memory: the
    shadow goes to a fresh address, so the reader's own table (and every
    other) is unchanged, whether install succeeds or fails. *)
Theorem install_keeps_tables (σ : state) (o a : Z) (t : sym_fns) :
  sym_fns_mem σ !! a = Some t ->
  sym_fns_mem (final (install_symfile_debug_logging o σ)) !! a = Some t.
Proof.
  intros Ha.
  assert (Hne : fresh (dom (sym_fns_mem σ)) ≠ a).
  { intros He. pose proof (is_fresh (dom (sym_fns_mem σ))) as Hf. rewrite He in Hf.
    apply Hf. apply elem_of_dom. by eexists. }
  unfold install_symfile_debug_logging. unfold_M.
  destruct (installed_in σ o); simpl; [done|].
  destruct (objfile_sf σ !! o) as [b|]; simpl; [|by rewrite lookup_insert_ne].
  destruct (<[_ := _]> (sym_fns_mem σ) !! b) as [t'|]; simpl; [|by rewrite lookup_insert_ne].
  rewrite lookup_insert_eq. simpl.
  rewrite !lookup_insert_ne by done. done.
Qed.

(** install, uninstall and objfile_set_sym_fns on one objfile leave every
    other objfile's sf and registry entry, the debug_symfile flag and the
    objfile list as they were, whatever their outcome. *)
Theorem instrumentation_is_per_objfile (σ : state) (o o' : Z) (sf : option Z) :
  o ≠ o' ->
  same_at o' σ (final (install_symfile_debug_logging o σ)) ∧
  same_at o' σ (final (uninstall_symfile_debug_logging o σ)) ∧
  same_at o' σ (final (objfile_set_sym_fns o sf σ)).
Proof.
  intros Hne. split_and!.
  - by apply keeps_install.
  - by apply keeps_uninstall.
  - assert (Hk : keeps o' (objfile_set_sym_fns o sf)).
    { unfold objfile_set_sym_fns. keeps_tac. }
    apply Hk.
Qed.

Lemma install_null_sf (σ : state) (o : Z) :
  objfile_sf σ !! o = None ->
  let r := install_symfile_debug_logging o σ in
  result r = Fail Null_deref ∧ objfile_sf (final r) !! o = None ∧
  data_key (final r) !! o = data_key σ !! o.
Proof.
  intros Hs r. subst r. unfold install_symfile_debug_logging. unfold_M.
  unfold installed_in. rewrite Hs. simpl. rewrite Hs. simpl. done.
Qed.

(** objfile_set_sym_fns (objfile, NULL) with debug_symfile on: the old
    instrumentation, if any, is removed, sf becomes NULL, and the install
    that follows dereferences the NULL table; the objfile is left with a
    NULL sf and no registry entry. *)
Theorem set_sym_fns_null_when_enabled (σ : state) (o : Z) :
  (data_key σ !! o ≠ None -> installed_in σ o = true) ->
  debug_symfile σ = true ->
  let r := objfile_set_sym_fns o None σ in
  result r = Fail Null_deref ∧ objfile_sf (final r) !! o = None ∧
  data_key (final r) !! o = None.
Proof.
  intros Hc Hf r. subst r.
  destruct (installed_in σ o) eqn:Hi.
  - pose proof Hi as Hi'. unfold installed_in in Hi'.
    destruct (objfile_sf σ !! o) as [p|] eqn:Hs; [|done].
    destruct (data_key σ !! o) as [d|] eqn:Hk; [|done].
    rewrite (guard_run_enabled_installed σ o p d None Hf Hs Hk). cbv zeta.
    destruct (install_null_sf
      (set_objfile_sf
         (set_data_key
            (set_sym_fns_mem (set_objfile_sf σ (store_ptr o (real_sf d) (objfile_sf σ)))
               (delete (debug_sf d) (sym_fns_mem σ))) (delete o (data_key σ)))
         (store_ptr o None
            (objfile_sf
               (set_data_key
                  (set_sym_fns_mem (set_objfile_sf σ (store_ptr o (real_sf d) (objfile_sf σ)))
                     (delete (debug_sf d) (sym_fns_mem σ))) (delete o (data_key σ))))))
      o) as (H1&H2&H3); [apply lookup_store_ptr|].
    split_and!; [done|done|]. rewrite H3. cbn. apply lookup_delete_eq.
  - rewrite (guard_run_enabled_plain σ o None Hf Hi).
    destruct (install_null_sf (set_objfile_sf σ (store_ptr o None (objfile_sf σ))) o)
      as (H1&H2&H3); [apply lookup_store_ptr|].
    split_and!; [done|done|]. rewrite H3. cbn.
    destruct (data_key σ !! o) eqn:Hk; [|done]. specialize (Hc ltac:(done)). discriminate.
Qed.

Lemma set_debug_symfile_cmd_run (σ : state) (b : bool) :
  set_debug_symfile_cmd b σ =
    set_debug_symfile_loop (objfiles σ) (set_debug_symfile_var σ b).
Proof.
  unfold set_debug_symfile_cmd, set_debug_symfile. unfold_M.
  by destruct (set_debug_symfile_loop _ _).
Qed.

Lemma bind_run_ok {A B} (m : M A) (f : A -> M B) (σ σ' : state) (x : A) :
  m σ = Run σ' [] (Ok x) -> (m ≫= f) σ = f x σ'.
Proof. intros H. rewrite (bind_ok m f σ σ' [] x H). simpl. by destruct (f x σ'). Qed.

Lemma loop_off (os : list Z) (σ : state) :
  debug_symfile σ = false ->
  let r := set_debug_symfile_loop os σ in
  result r = Ok tt ∧ debug_symfile (final r) = false ∧ objfiles (final r) = objfiles σ ∧
  ∀ o,
    (o ∉ os -> objfile_sf (final r) !! o = objfile_sf σ !! o ∧
               data_key (final r) !! o = data_key σ !! o) ∧
    (o ∈ os ->
       (∀ p d, objfile_sf σ !! o = Some p -> data_key σ !! o = Some d ->
          objfile_sf (final r) !! o = real_sf d ∧ data_key (final r) !! o = None) ∧
       (installed_in σ o = false ->
          objfile_sf (final r) !! o = objfile_sf σ !! o ∧
          data_key (final r) !! o = data_key σ !! o)).
Proof.
  revert σ. induction os as [|o1 os IH]; intros σ Hf; cbv zeta.
  { split_and!; try done. intros o. split; [done|]. intros Hin. by apply elem_of_nil in Hin. }
  cbn [set_debug_symfile_loop].
  (* the step at o1, as a state σ1 *)
  assert (Hstep : ∃ σ1, set_debug_symfile_one o1 σ = Run σ1 [] (Ok tt) ∧
            debug_symfile σ1 = false ∧ objfiles σ1 = objfiles σ ∧
            installed_in σ1 o1 = false ∧
            (∀ o, o ≠ o1 -> objfile_sf σ1 !! o = objfile_sf σ !! o ∧
                            data_key σ1 !! o = data_key σ !! o) ∧
            (∀ p d, objfile_sf σ !! o1 = Some p -> data_key σ !! o1 = Some d ->
               objfile_sf σ1 !! o1 = real_sf d ∧ data_key σ1 !! o1 = None) ∧
            (installed_in σ o1 = false -> σ1 = σ)).
  { destruct (installed_in σ o1) eqn:Hi.
    - pose proof Hi as Hi'. unfold installed_in in Hi'.
      destruct (objfile_sf σ !! o1) as [p|] eqn:Hs; [|done].
      destruct (data_key σ !! o1) as [d|] eqn:Hk; [|done].
      rewrite set_debug_symfile_one_installed by done. rewrite (uninstall_run σ o1 p d Hs Hk).
      eexists. split; [done|]. cbn. split_and!; try done.
      + unfold installed_in. cbn. rewrite lookup_delete_eq. by destruct (store_ptr _ _ _ !! o1).
      + intros o Hne. by rewrite lookup_store_ptr_ne, lookup_delete_ne by done.
      + intros p' d' [= <-] [= <-]. by rewrite lookup_store_ptr, lookup_delete_eq.
    - rewrite set_debug_symfile_one_noop by (by rewrite Hi).
      exists σ. split_and!; try done.
      intros p d Hs Hk. unfold installed_in in Hi. by rewrite Hs, Hk in Hi. }
  destruct Hstep as (σ1 & Hrun & Hf1 & Ho1 & Hi1 & Hoth & Hins & Hnoop).
  rewrite (bind_run_ok _ _ σ σ1 tt Hrun).
  destruct (IH σ1 Hf1) as (Hr & Hf' & Ho' & Hat). cbv zeta in *.
  split_and!; [done|done|congruence|]. intros o.
  (* at an objfile not installed in σ1, the rest of the loop changes nothing *)
  assert (Hplain : installed_in σ1 o = false ->
            objfile_sf (final (set_debug_symfile_loop os σ1)) !! o = objfile_sf σ1 !! o ∧
            data_key (final (set_debug_symfile_loop os σ1)) !! o = data_key σ1 !! o).
  { intros Hio. destruct (decide (o ∈ os)) as [Hin|Hnin];
      [apply (proj2 (proj2 (Hat o) Hin)) | apply (proj1 (Hat o) Hnin)]; done. }
  destruct (decide (o = o1)) as [->|Hne].
  - destruct (Hplain Hi1) as [E1 E2]. rewrite E1, E2.
    split; [intros Hn; exfalso; apply Hn; by left|]. intros _. split.
    + apply Hins.
    + intros Hi. by rewrite (Hnoop Hi).
  - destruct (Hoth o Hne) as [E1 E2]. split.
    + intros Hn. rewrite <- E1, <- E2. apply (proj1 (Hat o)). intros Hin. apply Hn. by right.
    + intros Hin. apply elem_of_cons in Hin as [->|Hin]; [done|].
      destruct (proj2 (Hat o) Hin) as [Ha Hb]. split.
      * intros p d Hs Hk. rewrite <- E1 in Hs. rewrite <- E2 in Hk. by apply (Ha p d).
      * intros Hi. unfold installed_in in Hi. rewrite <- E1, <- E2 in Hi.
        rewrite <- E1, <- E2. by apply Hb.
Qed.

(** "set debug symfile off" succeeds and leaves no listed objfile
    instrumented: an instrumented one gets its real_sf back as sf and loses
    its registry entry, any other keeps its sf and its entry. *)
Theorem disable_uninstalls_everything (σ : state) :
  let r := set_debug_symfile_cmd false σ in
  result r = Ok tt ∧ debug_symfile (final r) = false ∧
  ∀ o, o ∈ objfiles σ ->
    installed_in (final r) o = false ∧
    (∀ p d, objfile_sf σ !! o = Some p -> data_key σ !! o = Some d ->
       objfile_sf (final r) !! o = real_sf d ∧ data_key (final r) !! o = None) ∧
    (installed_in σ o = false ->
       objfile_sf (final r) !! o = objfile_sf σ !! o ∧
       data_key (final r) !! o = data_key σ !! o).
Proof.
  cbv zeta. rewrite set_debug_symfile_cmd_run.
  destruct (loop_off (objfiles σ) (set_debug_symfile_var σ false) eq_refl)
    as (Hr & Hf & _ & Hat).
  cbv zeta in *. split_and!; [done|done|]. intros o Hin.
  destruct (proj2 (Hat o) Hin) as [Ha Hb]. cbn in Ha, Hb.
  split_and!; [|done|done].
  destruct (installed_in σ o) eqn:Hi.
  - pose proof Hi as Hi'. unfold installed_in in Hi'.
    destruct (objfile_sf σ !! o) as [p|] eqn:Hs; [|done].
    destruct (data_key σ !! o) as [d|] eqn:Hk; [|done].
    unfold installed_in. rewrite (proj2 (Ha p d eq_refl eq_refl)).
    by repeat case_match.
  - destruct (Hb Hi) as [E1 E2]. unfold installed_in in *. by rewrite E1, E2.
Qed.

Lemma install_step (σ : state) (o a : Z) (t : sym_fns) :
  data_key σ !! o = None -> objfile_sf σ !! o = Some a -> sym_fns_mem σ !! a = Some t ->
  let σ1 := final (install_symfile_debug_logging o σ) in
  result (install_symfile_debug_logging o σ) = Ok tt ∧
  events (install_symfile_debug_logging o σ) = [] ∧
  debug_symfile σ1 = debug_symfile σ ∧ objfiles σ1 = objfiles σ ∧
  (∀ b u, sym_fns_mem σ !! b = Some u -> sym_fns_mem σ1 !! b = Some u) ∧
  (∀ o', o' ≠ o -> same_at o' σ σ1) ∧
  ∃ d, data_key σ1 !! o = Some d ∧ real_sf d = Some a ∧
    objfile_sf σ1 !! o = Some (debug_sf d) ∧
    sym_fns_mem σ1 !! debug_sf d = Some (copy_sf_ptrs t sym_fns_zero).
Proof.
  intros Hk Hs Hm σ1. subst σ1. rewrite (install_run σ o a t Hk Hs Hm). cbn.
  assert (Hfr : ∀ b u, sym_fns_mem σ !! b = Some u -> fresh (dom (sym_fns_mem σ)) ≠ b).
  { intros b u Hb He. pose proof (is_fresh (dom (sym_fns_mem σ))) as Hf. rewrite He in Hf.
    apply Hf. apply elem_of_dom. by eexists. }
  split_and!; try done.
  - intros b u Hb. rewrite lookup_insert_ne; [done|]. by eapply Hfr.
  - intros o' Hne. unfold same_at. cbn. by rewrite !lookup_insert_ne by done.
  - eexists. cbn. split_and!; [apply lookup_insert_eq | done | apply lookup_insert_eq |].
    apply lookup_insert_eq.
Qed.

Lemma loop_on (os : list Z) (σ : state) :
  debug_symfile σ = true ->
  (∀ o, o ∈ os -> installed_in σ o = true ∨
     (data_key σ !! o = None ∧ ∃ a t, objfile_sf σ !! o = Some a ∧ sym_fns_mem σ !! a = Some t)) ->
  let r := set_debug_symfile_loop os σ in
  result r = Ok tt ∧ debug_symfile (final r) = true ∧ objfiles (final r) = objfiles σ ∧
  (∀ b u, sym_fns_mem σ !! b = Some u -> sym_fns_mem (final r) !! b = Some u) ∧
  ∀ o,
    (o ∉ os -> same_at o σ (final r)) ∧
    (o ∈ os ->
       installed_in (final r) o = true ∧
       (installed_in σ o = true -> same_at o σ (final r)) ∧
       (∀ a t, installed_in σ o = false -> objfile_sf σ !! o = Some a ->
          sym_fns_mem σ !! a = Some t ->
          ∃ d, data_key (final r) !! o = Some d ∧ real_sf d = Some a ∧
            objfile_sf (final r) !! o = Some (debug_sf d) ∧
            sym_fns_mem (final r) !! debug_sf d = Some (copy_sf_ptrs t sym_fns_zero))).
Proof.
  revert σ. induction os as [|o1 os IH]; intros σ Hf Hpre; cbv zeta.
  { split_and!; try done. intros o. split; [done|]. intros Hin. by apply elem_of_nil in Hin. }
  cbn [set_debug_symfile_loop].
  assert (Hstep : ∃ σ1, set_debug_symfile_one o1 σ = Run σ1 [] (Ok tt) ∧
            debug_symfile σ1 = true ∧ objfiles σ1 = objfiles σ ∧
            (∀ b u, sym_fns_mem σ !! b = Some u -> sym_fns_mem σ1 !! b = Some u) ∧
            installed_in σ1 o1 = true ∧
            (∀ o, o ≠ o1 -> same_at o σ σ1) ∧
            (installed_in σ o1 = true -> σ1 = σ) ∧
            (∀ a t, installed_in σ o1 = false -> objfile_sf σ !! o1 = Some a ->
               sym_fns_mem σ !! a = Some t ->
               ∃ d, data_key σ1 !! o1 = Some d ∧ real_sf d = Some a ∧
                 objfile_sf σ1 !! o1 = Some (debug_sf d) ∧
                 sym_fns_mem σ1 !! debug_sf d = Some (copy_sf_ptrs t sym_fns_zero))).
  { destruct (installed_in σ o1) eqn:Hi.
    - rewrite set_debug_symfile_one_noop by (by rewrite Hi).
      exists σ. split_and!; try done; intros a t Hn; discriminate.
    - destruct (Hpre o1 ltac:(by left)) as [Hi'|(Hk & a & t & Hs & Hm)]; [congruence|].
      rewrite set_debug_symfile_one_plain by done.
      destruct (install_step σ o1 a t Hk Hs Hm) as (Hr & He & Hf1 & Ho1 & Hmem & Hoth & d & Hd).
      exists (final (install_symfile_debug_logging o1 σ)).
      split; [by destruct (install_symfile_debug_logging o1 σ); simpl in *; subst|].
      split_and!; try congruence; try done.
      + destruct Hd as (Hd1 & _ & Hd3 & _). unfold installed_in. by rewrite Hd1, Hd3.
      + intros a' t' _ Hs' Hm'. rewrite Hs in Hs'. injection Hs' as <-.
        rewrite Hm in Hm'. injection Hm' as <-. by exists d. }
  destruct Hstep as (σ1 & Hrun & Hf1 & Ho1 & Hmem1 & Hi1 & Hoth & Hnoop & Hnew).
  rewrite (bind_run_ok _ _ σ σ1 tt Hrun).
  assert (Hpre1 : ∀ o, o ∈ os -> installed_in σ1 o = true ∨
     (data_key σ1 !! o = None ∧ ∃ a t, objfile_sf σ1 !! o = Some a ∧ sym_fns_mem σ1 !! a = Some t)).
  { intros o Hin. destruct (decide (o = o1)) as [->|Hne]; [by left|].
    destruct (Hoth o Hne) as (E1 & E2 & _ & _).
    destruct (Hpre o ltac:(by right)) as [Hi|(Hk & a & t & Hs & Hm)].
    - left. unfold installed_in in *. by rewrite E1, E2.
    - right. rewrite E2, E1. split; [done|]. exists a, t. split; [done|]. by apply Hmem1. }
  destruct (IH σ1 Hf1 Hpre1) as (Hr & Hf' & Ho' & Hmem' & Hat). cbv zeta in *.
  set (σ' := final (set_debug_symfile_loop os σ1)) in *.
  split_and!; [done|done|congruence| intros b u Hb; by apply Hmem', Hmem1 |].
  assert (Hkeep1 : ∀ o, installed_in σ1 o = true -> same_at o σ1 σ').
  { intros o Hio. destruct (decide (o ∈ os)) as [Hin|Hnin];
      [apply (proj1 (proj2 (proj2 (Hat o) Hin))) | apply (proj1 (Hat o) Hnin)]; done. }
  intros o. destruct (decide (o = o1)) as [->|Hne].
  - pose proof (Hkeep1 o1 Hi1) as Hs1.
    split; [intros Hn; exfalso; apply Hn; by left|]. intros _. split_and!.
    + by rewrite (same_at_installed _ _ _ Hs1).
    + intros Hi. rewrite (Hnoop Hi) in Hs1. done.
    + intros a t Hi Hs Hm. destruct (Hnew a t Hi Hs Hm) as (d & Hd1 & Hd2 & Hd3 & Hd4).
      destruct Hs1 as (E1 & E2 & _ & _).
      exists d. split_and!; [congruence | done | congruence | by apply Hmem'].
  - pose proof (Hoth o Hne) as Hs0. split.
    + intros Hn. eapply same_at_trans; [exact Hs0|]. apply (proj1 (Hat o)).
      intros Hin. apply Hn. by right.
    + intros Hin. apply elem_of_cons in Hin as [->|Hin]; [done|].
      destruct (proj2 (Hat o) Hin) as (Ha & Hb & Hc).
      rewrite <- (same_at_installed _ _ _ Hs0). split_and!; [done| |].
      * intros Hi. eapply same_at_trans; [exact Hs0|]. by apply Hb.
      * intros a t Hi Hs Hm.
        destruct Hs0 as (E1 & E2 & _ & _).
        apply (Hc a t); [done | congruence |]. by apply Hmem1.
Qed.

(** "set debug symfile on", when every listed objfile is either
    instrumented already or has no registry entry and an sf pointing to a
    table, succeeds and leaves every listed objfile instrumented: the
    instrumented ones as they were, each other one with its old sf as
    real_sf and sf pointing to a shadow built from its table. *)
Theorem enable_installs_everything (σ : state) :
  (∀ o, o ∈ objfiles σ -> installed_in σ o = true ∨
     (data_key σ !! o = None ∧ ∃ a t, objfile_sf σ !! o = Some a ∧ sym_fns_mem σ !! a = Some t)) ->
  let r := set_debug_symfile_cmd true σ in
  result r = Ok tt ∧ debug_symfile (final r) = true ∧
  ∀ o, o ∈ objfiles σ ->
    installed_in (final r) o = true ∧
    (installed_in σ o = true ->
       objfile_sf (final r) !! o = objfile_sf σ !! o ∧
       data_key (final r) !! o = data_key σ !! o) ∧
    (∀ a t, installed_in σ o = false -> objfile_sf σ !! o = Some a ->
       sym_fns_mem σ !! a = Some t ->
       ∃ d, data_key (final r) !! o = Some d ∧ real_sf d = Some a ∧
         objfile_sf (final r) !! o = Some (debug_sf d) ∧
         sym_fns_mem (final r) !! debug_sf d = Some (copy_sf_ptrs t sym_fns_zero)).
Proof.
  intros Hpre. cbv zeta. rewrite set_debug_symfile_cmd_run.
  destruct (loop_on (objfiles σ) (set_debug_symfile_var σ true) eq_refl Hpre)
    as (Hr & Hf & _ & _ & Hat).
  cbv zeta in *. split_and!; [done|done|]. intros o Hin.
  destruct (proj2 (Hat o) Hin) as (Ha & Hb & Hc). split_and!; [done| |].
  - intros Hi. by destruct (Hb Hi) as (E1 & E2 & _).
  - intros a t. apply Hc.
Qed.

(** Turning logging on and then off, from a state where no listed objfile
    is instrumented and each has no registry entry and an sf pointing to a
    table, gives every listed objfile its own sf back and leaves no entry
    for it. *)
Theorem enable_then_disable_restores (σ : state) :
  (∀ o, o ∈ objfiles σ ->
     data_key σ !! o = None ∧ ∃ a t, objfile_sf σ !! o = Some a ∧ sym_fns_mem σ !! a = Some t) ->
  let r := (set_debug_symfile_cmd true;; set_debug_symfile_cmd false) σ in
  result r = Ok tt ∧ debug_symfile (final r) = false ∧
  ∀ o, o ∈ objfiles σ ->
    objfile_sf (final r) !! o = objfile_sf σ !! o ∧ data_key (final r) !! o = None.
Proof.
  intros Hpre. cbv zeta.
  assert (Hpre' : ∀ o, o ∈ objfiles σ -> installed_in σ o = true ∨
     (data_key σ !! o = None ∧ ∃ a t, objfile_sf σ !! o = Some a ∧ sym_fns_mem σ !! a = Some t)).
  { intros o Hin. right. by apply Hpre. }
  pose proof (loop_on (objfiles σ) (set_debug_symfile_var σ true) eq_refl Hpre')
    as (Hr1 & Hf1 & Ho1 & _ & Hat1).
  cbv zeta in *.
  set (σ1 := final (set_debug_symfile_loop (objfiles σ) (set_debug_symfile_var σ true))) in *.
  assert (Hrun1 : set_debug_symfile_cmd true σ = Run σ1
            (events (set_debug_symfile_loop (objfiles σ) (set_debug_symfile_var σ true))) (Ok tt)).
  { rewrite set_debug_symfile_cmd_run. subst σ1.
    destruct (set_debug_symfile_loop _ _); simpl in *; by subst. }
  rewrite (bind_ok _ _ σ σ1 _ tt Hrun1). cbn [final result].
  rewrite set_debug_symfile_cmd_run.
  destruct (loop_off (objfiles σ1) (set_debug_symfile_var σ1 false) eq_refl)
    as (Hr2 & Hf2 & _ & Hat2).
  cbv zeta in *. split_and!; [done|done|]. intros o Hin.
  destruct (Hpre o Hin) as (Hk & a & t & Hs & Hm).
  assert (Hi : installed_in σ o = false) by (unfold installed_in; rewrite Hk; by repeat case_match).
  destruct (proj2 (Hat1 o) Hin) as (_ & _ & Hc).
  destruct (Hc a t Hi Hs Hm) as (d & Hd1 & Hd2 & Hd3 & _).
  assert (Hin1 : o ∈ objfiles σ1) by (rewrite Ho1; exact Hin).
  destruct (proj2 (Hat2 o) Hin1) as (Ha & _).
  destruct (Ha (debug_sf d) d Hd3 Hd1) as (E1 & E2).
  split; [|done]. rewrite E1, Hd2. done.
Qed.

(** The five value-returning query methods other than has_partial_symbols,
    with logging on and a quick-function table, write exactly three
    events: the opening line, the single call to objfile->qf, and a closing
    line that prints the returned value (a null pointer as "NULL"). *)
Theorem queries_log_result (quick : Z -> string -> list Z -> res (Z * list (Z * bool)))
    (σ : state) (this qq : Z) (q : query) (v : Z) (writes : list (Z * bool)) (x : val) :
  debug_symfile σ = true ->
  objfile_qf σ !! this = Some qq ->
  quick qq (query_method q) (query_args this q) = Ok (v, writes) ->
  query_result_val q v = Some x ->
  let r := run_query quick this q σ in
  result r = Ok (query_value q v) ∧ final r = store_bools σ writes ∧
  ∃ fmt1 vs1 fmt2,
    events r = [Line fmt1 vs1; Qf_call qq (query_method q) (query_args this q); Line fmt2 [x]].
Proof.
  intros Hf Hq Hc Hx. destruct q; try discriminate; cbn [query_result_val] in Hx;
    injection Hx as <-; cbn [query_method query_args] in Hc;
    cbn [run_query]; unfold_queries; unfold_M; rewrite ?Hf; cbv beta iota;
    cbn [debug_symfile set_debug_symfile_var]; rewrite ?Hq; cbv beta iota; rewrite Hc;
    cbv beta iota; cbn; rewrite ?Hf.
  all: split_and!; try reflexivity; eexists _, _, _; reflexivity.
Qed.

(** Uninstalling the instrumentation releases the shadow table: its
    address no longer holds a table, every other table, the saved real one
    included, is left as it was, and no event is written. *)
Theorem uninstall_frees_shadow (σ : state) (o p : Z) (d : debug_sym_fns_data) :
  objfile_sf σ !! o = Some p ->
  data_key σ !! o = Some d ->
  let r := uninstall_symfile_debug_logging o σ in
  result r = Ok tt ∧ events r = [] ∧
  sym_fns_mem (final r) !! debug_sf d = None ∧
  (∀ b, b ≠ debug_sf d -> sym_fns_mem (final r) !! b = sym_fns_mem σ !! b).
Proof.
  intros Hs Hk. cbn zeta. rewrite (uninstall_run σ o p d Hs Hk). cbn.
  split_and!; [done | done | by rewrite lookup_delete_eq |].
  intros b Hb. by rewrite lookup_delete_ne by congruence.
Qed.

(** In every reachable state the registry holds a datum only for a listed
    objfile that is instrumented, and only while logging is on. *)
Theorem reachable_registry_consistent (σ : state) (o : Z) (d : debug_sym_fns_data) :
  reachable σ -> data_key σ !! o = Some d ->
  o ∈ objfiles σ ∧ installed_in σ o = true ∧ debug_symfile σ = true.
Proof.
  intros Hr Hk. destruct (reachable_ka σ Hr o d Hk) as (Hin & [p Hs] & Hf).
  split_and!; [done | by unfold installed_in; rewrite Hs, Hk |].
  destruct Hf as [Hf | Hn]; [done | by apply elem_of_nil in Hn].
Qed.

(* ------------------------------------------------------------------ *)
(* The further properties at concrete inputs                          *)
(* ------------------------------------------------------------------ *)

Lemma void_proxies_log_before_call_witness :
  (data_key Sample.instrumented !! 7 = Some {| real_sf := Some 100; debug_sf := 101 |} ∧
   real_sf {| real_sf := Some 100; debug_sf := 101 |} = Some 100 ∧
   sym_fns_mem Sample.instrumented !! 100 = Some Sample.table ∧
   forwarded_code Sample.table Pinit = Some (Backend 2) ∧
   In Pinit [Pnew_init; Pinit; Pread; Pfinish; Poffsets; Pread_linetable] ∧
   length (@nil Z) = proxy_nargs Pinit) ∧
  let direct := call_code Sample.backend 1 (Backend 2) [7] Sample.instrumented in
  let shadow := call_code Sample.backend 2 (Debug Pinit) [7] Sample.instrumented in
  result shadow = result direct ∧ final shadow = final direct ∧
  ∃ fmt vs, events shadow = Line fmt vs :: events direct.
Proof.
  split.
  - split_and!; try reflexivity. simpl; auto.
  - apply (void_proxies_log_before_call Sample.backend Sample.instrumented 7 100
             {| real_sf := Some 100; debug_sf := 101 |} Sample.table Pinit (Backend 2) [] 1%nat);
      try reflexivity. simpl; auto.
Defined.

Lemma relocate_and_probes_log_result_witness :
  (data_key Sample.instrumented !! 7 = Some {| real_sf := Some 100; debug_sf := 101 |} ∧
   real_sf {| real_sf := Some 100; debug_sf := 101 |} = Some 100 ∧
   sym_fns_mem Sample.instrumented !! 100 = Some Sample.table ∧
   sym_relocate Sample.table = Some (Backend 5) ∧
   call_code Sample.backend 1 (Backend 5) [7; 10; 11] Sample.instrumented =
     Run Sample.instrumented [Forward 5 [7; 10; 11]] (Ok (RVal 42))) ∧
  call_code Sample.backend 2 (Debug Prelocate) [7; 10; 11] Sample.instrumented =
    Run Sample.instrumented
      ([Forward 5 [7; 10; 11]] ++ [Line "sf->sym_relocate (%s, %s, %s) = %s"
                                     [VObj 7; VAddr 10; VAddr 11; VAddr 42]]) (Ok (RVal 42)).
Proof.
  split.
  - split_and!; vm_compute; reflexivity.
  - apply (proj1 (relocate_and_probes_log_result Sample.backend Sample.instrumented
             Sample.instrumented 7 100 {| real_sf := Some 100; debug_sf := 101 |} Sample.table
             (Backend 5) 1%nat [Forward 5 [7; 10; 11]] (RVal 42) eq_refl eq_refl eq_refl) 10 11);
      vm_compute; reflexivity.
Defined.

Lemma proxies_without_datum_witness :
  (data_key (Sample.loaded false) !! 7 = None ∧ Pread ≠ Psegments ∧
   length [1] = proxy_nargs Pread) ∧
  let r := call_code Sample.backend 2 (Debug Pread) [7; 1] (Sample.loaded false) in
  result r = Fail Null_deref ∧ final r = Sample.loaded false ∧
  (Pread = Prelocate ∨ Pread = Pget_probes -> events r = []) ∧
  (Pread ≠ Prelocate -> Pread ≠ Pget_probes -> ∃ fmt vs, events r = [Line fmt vs]).
Proof.
  split.
  - split_and!; [reflexivity | discriminate | reflexivity].
  - apply (proxies_without_datum Sample.backend (Sample.loaded false) 7 Pread [1] 1%nat);
      [reflexivity | discriminate | reflexivity].
Defined.

Lemma queries_forward_when_quiet_witness :
  (debug_symfile (Sample.with_qf false) = false ∧
   objfile_qf (Sample.with_qf false) !! 7 = Some 50 ∧
   Q_lookup_symbol 1 2 3 ≠ Q_has_partial_symbols) ∧
  run_query Sample.quick 7 (Q_lookup_symbol 1 2 3) (Sample.with_qf false) =
    match Sample.quick 50 (query_method (Q_lookup_symbol 1 2 3))
            (query_args 7 (Q_lookup_symbol 1 2 3)) with
    | Ok (v, writes) =>
        Run (store_bools (Sample.with_qf false) writes)
            [Qf_call 50 (query_method (Q_lookup_symbol 1 2 3)) (query_args 7 (Q_lookup_symbol 1 2 3))]
            (Ok (query_value (Q_lookup_symbol 1 2 3) v))
    | Fail e =>
        Run (Sample.with_qf false)
            [Qf_call 50 (query_method (Q_lookup_symbol 1 2 3)) (query_args 7 (Q_lookup_symbol 1 2 3))]
            (Fail e)
    end.
Proof.
  split.
  - split_and!; [reflexivity | reflexivity | discriminate].
  - apply (queries_forward_when_quiet Sample.quick (Sample.with_qf false) 7 50
             (Q_lookup_symbol 1 2 3)); [reflexivity | reflexivity | discriminate].
Defined.

Lemma has_partial_symbols_decision_witness :
  (objfile_qf (Sample.with_qf true) !! 7 = Some 50 ∧
   Z.land (default 0 (objfile_flags (Sample.with_qf true) !! 7)) OBJF_PSYMTABS_READ = 0 ∧
   Sample.quick 50 "can_lazily_read_symbols" [] = Ok (0, []) ∧
   Sample.quick 50 "has_symbols" [7] = Ok (5, [(30, true)])) ∧
  let r := run_query Sample.quick 7 Q_has_partial_symbols (Sample.with_qf true) in
  result r = Ok (QBool (negb (5 =? 0))) ∧
  filter (fun e => is_qf_call e = true) (events r) =
    [Qf_call 50 "can_lazily_read_symbols" []; Qf_call 50 "has_symbols" [7]].
Proof.
  split.
  - split_and!; vm_compute; reflexivity.
  - pose proof (has_partial_symbols_decision Sample.quick (Sample.with_qf true) 7 50 eq_refl)
      as H.
    cbv zeta in H. destruct H as (_ & H & _).
    apply (H ltac:(vm_compute; reflexivity) [] 5 [(30, true)]); vm_compute; reflexivity.
Defined.

Lemma queries_silent_when_off_witness :
  debug_symfile (Sample.with_qf false) = false ∧
  Forall (fun e => is_line e = false)
    (events (run_query Sample.quick 7 Q_dump (Sample.with_qf false))).
Proof.
  split; [reflexivity |].
  apply (queries_silent_when_off Sample.quick (Sample.with_qf false) 7 Q_dump). reflexivity.
Defined.

Lemma queries_log_before_qf_witness :
  debug_symfile (Sample.with_qf true) = true ∧
  let r := run_query Sample.quick 7 Q_dump (Sample.with_qf true) in
  (Q_dump ≠ Q_has_partial_symbols -> (∀ n d p, Q_dump ≠ Q_lookup_global_symbol_language n d p) ->
   ∃ fmt vs rest, events r = Line fmt vs :: rest) ∧
  (∀ n d p, Q_dump = Q_lookup_global_symbol_language n d p ->
   Forall (fun e => is_line e = false) (events r)).
Proof.
  split; [reflexivity |].
  apply (queries_log_before_qf Sample.quick (Sample.with_qf true) 7 Q_dump). reflexivity.
Defined.

Lemma install_keeps_tables_witness :
  sym_fns_mem (Sample.loaded true) !! 100 = Some Sample.table ∧
  sym_fns_mem (final (install_symfile_debug_logging 7 (Sample.loaded true))) !! 100 =
    Some Sample.table.
Proof.
  split; [reflexivity |].
  apply (install_keeps_tables (Sample.loaded true) 7 100 Sample.table). reflexivity.
Defined.

Lemma instrumentation_is_per_objfile_witness :
  (7 : Z) ≠ 8 ∧
  same_at 8 Sample.instrumented (final (install_symfile_debug_logging 7 Sample.instrumented)) ∧
  same_at 8 Sample.instrumented (final (uninstall_symfile_debug_logging 7 Sample.instrumented)) ∧
  same_at 8 Sample.instrumented (final (objfile_set_sym_fns 7 None Sample.instrumented)).
Proof.
  split; [lia |].
  apply (instrumentation_is_per_objfile Sample.instrumented 7 8 None). lia.
Defined.

Lemma set_sym_fns_null_when_enabled_witness :
  (data_key Sample.instrumented !! 7 ≠ None -> installed_in Sample.instrumented 7 = true) ∧
  debug_symfile Sample.instrumented = true ∧
  let r := objfile_set_sym_fns 7 None Sample.instrumented in
  result r = Fail Null_deref ∧ objfile_sf (final r) !! 7 = None ∧
  data_key (final r) !! 7 = None.
Proof.
  split; [intros _; reflexivity |]. split; [reflexivity |].
  apply (set_sym_fns_null_when_enabled Sample.instrumented 7); [intros _; reflexivity | reflexivity].
Defined.

Lemma disable_uninstalls_everything_witness :
  7 ∈ objfiles Sample.instrumented ∧
  objfile_sf (final (set_debug_symfile_cmd false Sample.instrumented)) !! 7 = Some 100 ∧
  data_key (final (set_debug_symfile_cmd false Sample.instrumented)) !! 7 = None.
Proof.
  assert (Hin : 7 ∈ objfiles Sample.instrumented) by (cbn; apply elem_of_cons; by left).
  split; [exact Hin |].
  destruct (disable_uninstalls_everything Sample.instrumented) as (_ & _ & H).
  destruct (H 7 Hin) as (_ & H2 & _).
  exact (H2 101 {| real_sf := Some 100; debug_sf := 101 |} eq_refl eq_refl).
Defined.

Lemma enable_installs_everything_witness :
  (∀ o, o ∈ objfiles (Sample.loaded false) -> installed_in (Sample.loaded false) o = true ∨
     (data_key (Sample.loaded false) !! o = None ∧
      ∃ a t, objfile_sf (Sample.loaded false) !! o = Some a ∧
             sym_fns_mem (Sample.loaded false) !! a = Some t)) ∧
  let r := set_debug_symfile_cmd true (Sample.loaded false) in
  result r = Ok tt ∧ debug_symfile (final r) = true ∧
  ∀ o, o ∈ objfiles (Sample.loaded false) ->
    installed_in (final r) o = true ∧
    (installed_in (Sample.loaded false) o = true ->
       objfile_sf (final r) !! o = objfile_sf (Sample.loaded false) !! o ∧
       data_key (final r) !! o = data_key (Sample.loaded false) !! o) ∧
    (∀ a t, installed_in (Sample.loaded false) o = false ->
       objfile_sf (Sample.loaded false) !! o = Some a ->
       sym_fns_mem (Sample.loaded false) !! a = Some t ->
       ∃ d, data_key (final r) !! o = Some d ∧ real_sf d = Some a ∧
         objfile_sf (final r) !! o = Some (debug_sf d) ∧
         sym_fns_mem (final r) !! debug_sf d = Some (copy_sf_ptrs t sym_fns_zero)).
Proof.
  assert (Hpre : ∀ o, o ∈ objfiles (Sample.loaded false) ->
     installed_in (Sample.loaded false) o = true ∨
     (data_key (Sample.loaded false) !! o = None ∧
      ∃ a t, objfile_sf (Sample.loaded false) !! o = Some a ∧
             sym_fns_mem (Sample.loaded false) !! a = Some t)).
  { intros o Ho. cbn in Ho. apply elem_of_cons in Ho as [->|Ho]; [|by apply elem_of_nil in Ho].
    right. split; [reflexivity |]. exists 100, Sample.table. split; reflexivity. }
  split; [exact Hpre |].
  exact (enable_installs_everything (Sample.loaded false) Hpre).
Defined.

Lemma enable_then_disable_restores_witness :
  (∀ o, o ∈ objfiles (Sample.loaded false) ->
     data_key (Sample.loaded false) !! o = None ∧
     ∃ a t, objfile_sf (Sample.loaded false) !! o = Some a ∧
            sym_fns_mem (Sample.loaded false) !! a = Some t) ∧
  let r := (set_debug_symfile_cmd true;; set_debug_symfile_cmd false) (Sample.loaded false) in
  result r = Ok tt ∧ debug_symfile (final r) = false ∧
  ∀ o, o ∈ objfiles (Sample.loaded false) ->
    objfile_sf (final r) !! o = objfile_sf (Sample.loaded false) !! o ∧
    data_key (final r) !! o = None.
Proof.
  assert (Hpre : ∀ o, o ∈ objfiles (Sample.loaded false) ->
     data_key (Sample.loaded false) !! o = None ∧
     ∃ a t, objfile_sf (Sample.loaded false) !! o = Some a ∧
            sym_fns_mem (Sample.loaded false) !! a = Some t).
  { intros o Ho. cbn in Ho. apply elem_of_cons in Ho as [->|Ho]; [|by apply elem_of_nil in Ho].
    split; [reflexivity |]. exists 100, Sample.table. split; reflexivity. }
  split; [exact Hpre |].
  exact (enable_then_disable_restores (Sample.loaded false) Hpre).
Defined.

Lemma queries_log_result_witness :
  (debug_symfile (Sample.with_qf true) = true ∧
   objfile_qf (Sample.with_qf true) !! 7 = Some 50 ∧
   Sample.quick 50 (query_method (Q_lookup_symbol 1 2 3)) (query_args 7 (Q_lookup_symbol 1 2 3)) =
     Ok (5, [(30, true)]) ∧
   query_result_val (Q_lookup_symbol 1 2 3) 5 = Some (VCompunit 5)) ∧
  let r := run_query Sample.quick 7 (Q_lookup_symbol 1 2 3) (Sample.with_qf true) in
  result r = Ok (query_value (Q_lookup_symbol 1 2 3) 5) ∧
  final r = store_bools (Sample.with_qf true) [(30, true)] ∧
  ∃ fmt1 vs1 fmt2,
    events r = [Line fmt1 vs1;
                Qf_call 50 (query_method (Q_lookup_symbol 1 2 3)) (query_args 7 (Q_lookup_symbol 1 2 3));
                Line fmt2 [VCompunit 5]].
Proof.
  split.
  - split_and!; vm_compute; reflexivity.
  - apply (queries_log_result Sample.quick (Sample.with_qf true) 7 50 (Q_lookup_symbol 1 2 3)
             5 [(30, true)] (VCompunit 5)); vm_compute; reflexivity.
Defined.

Lemma uninstall_frees_shadow_witness :
  (objfile_sf Sample.instrumented !! 7 = Some 101 ∧
   data_key Sample.instrumented !! 7 = Some {| real_sf := Some 100; debug_sf := 101 |}) ∧
  let r := uninstall_symfile_debug_logging 7 Sample.instrumented in
  result r = Ok tt ∧ events r = [] ∧
  sym_fns_mem (final r) !! 101 = None ∧
  (∀ b, b ≠ 101 -> sym_fns_mem (final r) !! b = sym_fns_mem Sample.instrumented !! b).
Proof.
  split; [split; reflexivity |].
  apply (uninstall_frees_shadow Sample.instrumented 7 101
           {| real_sf := Some 100; debug_sf := 101 |}); reflexivity.
Defined.

Lemma reachable_registry_consistent_witness :
  let σ := final (set_debug_symfile_cmd true (Sample.loaded false)) in
  (reachable σ ∧ data_key σ !! 7 = Some {| real_sf := Some 100; debug_sf := 101 |}) ∧
  7 ∈ objfiles σ ∧ installed_in σ 7 = true ∧ debug_symfile σ = true.
Proof.
  cbv zeta.
  assert (Hr : reachable (final (set_debug_symfile_cmd true (Sample.loaded false)))).
  { apply reach_set_debug. apply reach_start. reflexivity. }
  assert (Hk : data_key (final (set_debug_symfile_cmd true (Sample.loaded false))) !! 7 =
                 Some {| real_sf := Some 100; debug_sf := 101 |}) by (vm_compute; reflexivity).
  split; [split; assumption |].
  exact (reachable_registry_consistent _ 7 _ Hr Hk).
Defined.
